(** * The HTTP record/replay proxy of [http_vcr.go]

    A shallow embedding of [http_vcr.go]: the session constructor
    [NewHttpVcr], the proxy [handler] with [handleErrorInHandler],
    [getResponseFromRemote], [getNextRecordedCassetteResponse] and
    [InitializeServer].

    The file has three layers.
    - The Go runtime the code runs on ([os], [net/http], [io/ioutil], [fmt]):
      only the operations the source calls, with the behaviour their
      documentation gives them.
    - The cassette recorder and replayer, which [http_vcr.go] calls but does
      not define: an interface ([Cassette]) the embedding is parametric in,
      and one instance of it written from the design document.
    - The functions of [http_vcr.go] themselves, as computations in a small
      state-and-panic monad over the session, the response writer and a
      chronological trace of the externally visible actions. *)

From stdpp Require Import base option list strings gmap.
From Stdlib Require Import ZArith Strings.Byte Strings.Ascii.

Open Scope Z_scope.

(* ===================================================================== *)
(** ** Go values *)
(* ===================================================================== *)

(** Go's [error] values that occur here. [nil] is [None]. *)
Inductive GoError : Type :=
  | ErrNotExist (path : string)      (* os: file does not exist *)
  | ErrPermission (path : string)    (* os: permission denied *)
  | ErrMalformed (path : string)     (* cassette content does not decode *)
  | ErrMessage (msg : string).       (* errors.New(msg), transport errors *)

Definition error : Type := option GoError.

(** [err.Error()]. *)
Definition Error (e : GoError) : string :=
  match e with
  | ErrNotExist p => "stat " +:+ p +:+ ": no such file or directory"
  | ErrPermission p => "remove " +:+ p +:+ ": permission denied"
  | ErrMalformed p => "cassette " +:+ p +:+ ": malformed"
  | ErrMessage m => m
  end.

(** [os.IsNotExist(err)]. *)
Definition os_IsNotExist (err : error) : bool :=
  match err with
  | Some (ErrNotExist _) => true
  | _ => false
  end.

(** A call either returns or panics (nil dereference, failed type
    assertion, invalid status code). *)
Inductive outcome (A : Type) : Type :=
  | Returned (a : A)
  | Panicked (msg : string).
Arguments Returned {A} a.
Arguments Panicked {A} msg.

Definition nil_dereference : string :=
  "invalid memory address or nil pointer dereference".

(* ===================================================================== *)
(** ** net/http: headers, requests, responses *)
(* ===================================================================== *)

(** [http.Header] is [map[string][]string]. The keys this program uses
    ("Authorization", "Content-Type", "Content-Length") are already in
    canonical form, so canonicalisation is the identity on them. *)
Abbreviation Header := (gmap string (list string)).

(** [h.Get(key)]: the first value of the key, or the empty string. *)
Definition Header_Get (h : Header) (key : string) : string :=
  match h !! key with
  | Some (v :: _) => v
  | _ => EmptyString
  end.

(** [h.Set(key, value)]: replaces the values of the key. *)
Definition Header_Set (h : Header) (key value : string) : Header :=
  <[key := [value]]> h.

(** [h.Add(key, value)]: appends to the values of the key. *)
Definition Header_Add (h : Header) (key value : string) : Header :=
  <[key := default [] (h !! key) ++ [value]]> h.

(** An inbound [*http.Request] as the server hands it to a handler. *)
Record Request : Type := mkRequest {
  Method : string;
  RequestURI : string;          (* unmodified request target, with query *)
  URLPath : string;             (* r.URL.Path, what the mux dispatches on *)
  ReqHeader : Header;
  ReqBody : list byte
}.

(** The request [http.NewRequest] builds and [client.Do] sends. *)
Record OutRequest : Type := mkOutRequest {
  OutMethod : string;
  OutURL : string;
  OutHeader : Header;
  OutBody : option (list byte)  (* [None] is a nil body *)
}.

(** A response body is a stream: [ioutil.ReadAll] returns the bytes it
    could read and the error that stopped it, if any. *)
Record BodyStream : Type := mkBody {
  bodyData : list byte;
  bodyErr : error
}.

(** [*http.Response]. *)
Record Response : Type := mkResponse {
  Status : string;              (* e.g. "200 OK" *)
  StatusCode : Z;
  RespHeader : Header;
  Body : BodyStream
}.

(** [&http.Response{}]. *)
Definition zeroResponse : Response :=
  mkResponse EmptyString 0 ∅ (mkBody [] None).

(** [ioutil.ReadAll(body)]. *)
Definition ioutil_ReadAll (b : BodyStream) : list byte * error :=
  (bodyData b, bodyErr b).

(** [ioutil.NopCloser(bytes.NewBuffer(data))]. *)
Definition NopCloser_Buffer (data : list byte) : BodyStream :=
  mkBody data None.

(** Characters allowed in a method token (RFC 7230 tchar), as
    [http.NewRequest] checks them. *)
Definition isTokenChar (c : ascii) : bool :=
  let n := Z.of_nat (nat_of_ascii c) in
  ((48 <=? n) && (n <=? 57)) || ((65 <=? n) && (n <=? 90))
  || ((97 <=? n) && (n <=? 122))
  || bool_decide (n ∈ [33; 35; 36; 37; 38; 39; 42; 43; 45; 46; 94; 95; 96; 124; 126]).

Fixpoint allChars (p : ascii → bool) (s : string) : bool :=
  match s with
  | EmptyString => true
  | String c s' => p c && allChars p s'
  end.

Definition validMethod (m : string) : bool :=
  negb (String.eqb m EmptyString) && allChars isTokenChar m.

(** [http.NewRequest(method, url, nil)]: [None] stands for the result
    [(nil, err)]. An empty method means GET. Whether the URL text parses
    is left to [url_ok]. *)
Definition http_NewRequest (url_ok : string → bool) (method url : string)
  : option OutRequest :=
  let method := if String.eqb method EmptyString then "GET"%string else method in
  if validMethod method && url_ok url
  then Some (mkOutRequest method url ∅ None)
  else None.

(* ===================================================================== *)
(** ** net/http: the response writer *)
(* ===================================================================== *)

(** The server's [http.ResponseWriter]. [WriteHeader] commits the status
    and takes a snapshot of the header map; later changes of the map are
    not sent. A second [WriteHeader] is ignored. [Write] commits status
    200 first when nothing was committed. *)
Record ResponseWriter : Type := mkWriter {
  forHead : bool;               (* the request method is HEAD *)
  handlerHeader : Header;       (* the map [w.Header()] returns *)
  wroteHeader : bool;
  status : Z;
  sentHeader : Header;          (* the snapshot taken by WriteHeader *)
  sentBody : list byte
}.

Definition NewResponseWriter (r : Request) : ResponseWriter :=
  mkWriter (String.eqb (Method r) "HEAD") ∅ false 0 ∅ [].

(** [checkWriteHeaderCode]: the code must have three digits. *)
Definition validWriteHeaderCode (code : Z) : bool :=
  (100 <=? code) && (code <=? 999).

(** [bodyAllowedForStatus]. *)
Definition bodyAllowedForStatus (code : Z) : bool :=
  if (100 <=? code) && (code <=? 199) then false
  else if code =? 204 then false
  else if code =? 304 then false
  else true.

Definition rw_WriteHeader (w : ResponseWriter) (code : Z)
  : outcome ResponseWriter :=
  if wroteHeader w then Returned w   (* superfluous call: logged, ignored *)
  else if validWriteHeaderCode code
  then Returned (mkWriter (forHead w) (handlerHeader w) true code
                          (handlerHeader w) (sentBody w))
  else Panicked "invalid WriteHeader code".

(** [w.Header().Set(key, value)]. *)
Definition rw_Header_Set (w : ResponseWriter) (key value : string)
  : ResponseWriter :=
  mkWriter (forHead w) (Header_Set (handlerHeader w) key value)
           (wroteHeader w) (status w) (sentHeader w) (sentBody w).

(** [w.Write(data)]. *)
Definition rw_Write (w : ResponseWriter) (data : list byte)
  : outcome ResponseWriter :=
  match rw_WriteHeader w 200 with
  | Panicked m => Panicked m
  | Returned w =>
      if bodyAllowedForStatus (status w) && negb (forHead w)
      then Returned (mkWriter (forHead w) (handlerHeader w) (wroteHeader w)
                              (status w) (sentHeader w) (sentBody w ++ data))
      else Returned w
  end.

(** What the server does when the handler has returned: commit status 200
    if the handler committed nothing. *)
Definition rw_finishRequest (w : ResponseWriter) : outcome ResponseWriter :=
  rw_WriteHeader w 200.

(** The Content-Type the handler committed, if it committed one. When it
    committed none the server chooses one itself from the first bytes of
    the body. *)
Definition committedContentType (w : ResponseWriter) : option string :=
  match sentHeader w !! "Content-Type"%string with
  | Some (v :: _) => Some v
  | _ => None
  end.

(** [sub] occurs in [s] as a contiguous run of bytes. *)
Fixpoint isPrefixOf (sub s : list byte) : bool :=
  match sub, s with
  | [], _ => true
  | _ :: _, [] => false
  | a :: sub', b :: s' => Byte.eqb a b && isPrefixOf sub' s'
  end.

Fixpoint bytes_Contains (s sub : list byte) : bool :=
  isPrefixOf sub s ||
  match s with
  | [] => false
  | _ :: s' => bytes_Contains s' sub
  end.

(* ===================================================================== *)
(** ** net/http: the request multiplexer *)
(* ===================================================================== *)

Fixpoint segments_from (s : string) (cur : string) : list string :=
  match s with
  | EmptyString => [cur]
  | String c s' =>
      if Ascii.eqb c "/" then cur :: segments_from s' EmptyString
      else segments_from s' (cur +:+ String c EmptyString)
  end.

(** [path.Clean] on a rooted path: empty and "." elements are dropped and
    ".." removes the element before it. *)
Definition clean_step (stack : list string) (seg : string) : list string :=
  if String.eqb seg EmptyString then stack
  else if String.eqb seg "." then stack
  else if String.eqb seg ".." then tail stack
  else seg :: stack.

Definition join_rooted (segs : list string) : string :=
  match segs with
  | [] => "/"
  | _ => foldr (λ seg acc, "/" +:+ seg +:+ acc) EmptyString segs
  end.

Definition path_Clean (p : string) : string :=
  join_rooted (rev (fold_left clean_step (segments_from p EmptyString) [])).

Fixpoint endsWithSlash (s : string) : bool :=
  match s with
  | EmptyString => false
  | String c EmptyString => Ascii.eqb c "/"
  | String _ s' => endsWithSlash s'
  end.

(** [cleanPath] of [net/http]: the canonical form of a request path. *)
Definition cleanPath (p : string) : string :=
  if String.eqb p EmptyString then "/"%string
  else
    let p := match p with
             | String c _ => if Ascii.eqb c "/" then p else "/" +:+ p
             | EmptyString => p
             end in
    let np := path_Clean p in
    if endsWithSlash p && negb (String.eqb np "/") then np +:+ "/" else np.

(** The two functions this program registers. *)
Inductive HandlerFunc : Type :=
  | vcrStopHandler      (* the closure registered for "/vcr/stop" *)
  | vcrHandler.         (* httpVcr.handler *)

(** [*http.ServeMux]: the registered patterns. *)
Record ServeMux : Type := mkMux {
  muxEntries : list (string * HandlerFunc)
}.

Definition http_NewServeMux : ServeMux := mkMux [].

Definition mux_HandleFunc (mux : ServeMux) (pattern : string) (h : HandlerFunc)
  : ServeMux :=
  mkMux (muxEntries mux ++ [(pattern, h)]).

(** [*http.Server]. *)
Record Server : Type := mkServer {
  Addr : string;
  Handler : ServeMux
}.

Inductive Dispatch : Type :=
  | ToHandler (h : HandlerFunc)
  | ToRedirect (location : string)   (* 301 to the canonical path *)
  | ToNotFound.

(** [mux.match]: an exact pattern first, then the longest pattern ending
    in "/" that is a prefix of the path. *)
Definition pattern_exact (path : string) (e : string * HandlerFunc) : bool :=
  String.eqb (fst e) path.

Definition pattern_subtree (path : string) (e : string * HandlerFunc) : bool :=
  endsWithSlash (fst e) && String.prefix (fst e) path.

Definition longer (a b : string * HandlerFunc) : string * HandlerFunc :=
  if (String.length (fst a) <? String.length (fst b))%nat then b else a.

Definition mux_match (mux : ServeMux) (path : string) : Dispatch :=
  match List.filter (pattern_exact path) (muxEntries mux) with
  | e :: _ => ToHandler (snd e)
  | [] =>
      match List.filter (pattern_subtree path) (muxEntries mux) with
      | e :: es => ToHandler (snd (fold_left longer es e))
      | [] => ToNotFound
      end
  end.

Definition registered (mux : ServeMux) (path : string) : bool :=
  existsb (pattern_exact path) (muxEntries mux).

(** [mux.redirectToPathSlash]: a path that is not registered while the
    path with a slash appended is, is redirected to the latter. *)
Definition redirectToPathSlash (mux : ServeMux) (path : string) : bool :=
  negb (registered mux path)
  && negb (String.eqb path EmptyString)
  && registered mux (path +:+ "/")
  && negb (endsWithSlash path).

(** [mux.Handler(r)]: a path that is not canonical is answered with a
    redirect; CONNECT requests are not canonicalised. *)
Definition mux_Handler (mux : ServeMux) (r : Request) : Dispatch :=
  if String.eqb (Method r) "CONNECT" then
    if redirectToPathSlash mux (URLPath r)
    then ToRedirect (URLPath r +:+ "/")
    else mux_match mux (URLPath r)
  else
    let path := cleanPath (URLPath r) in
    if redirectToPathSlash mux path then ToRedirect (path +:+ "/")
    else if negb (String.eqb path (URLPath r)) then ToRedirect path
    else mux_match mux (URLPath r).

(* ===================================================================== *)
(** ** Serializable requests and responses, interactions *)
(* ===================================================================== *)

(** Modelled from the spec: [HttpRequestSerializable] is declared outside
    [http_vcr.go]; the design document gives its fields as method, uri,
    headers and body. *)
Record HttpRequestSerializable : Type := mkSReq {
  sMethod : string;
  sURI : string;
  sHeaders : Header;
  sBody : list byte
}.

(** Modelled from the spec: [HttpResponseSerializable] is declared outside
    [http_vcr.go]; the design document gives its fields as status code,
    headers and body. *)
Record HttpResponseSerializable : Type := mkSResp {
  sStatusCode : Z;
  sRespHeaders : Header;
  sRespBody : list byte
}.

(** Modelled from the spec: [NewSerializableHttpRequest] is defined outside
    [http_vcr.go]; the conversion from the live request is lossless. *)
Definition NewSerializableHttpRequest (r : Request) : HttpRequestSerializable :=
  mkSReq (Method r) (RequestURI r) (ReqHeader r) (ReqBody r).

(** Modelled from the spec: [NewSerializableHttpResponse] is defined outside
    [http_vcr.go]; the conversion from the live response is lossless and
    takes the body from the response's (re-readable) body buffer. *)
Definition NewSerializableHttpResponse (resp : Response) : HttpResponseSerializable :=
  mkSResp (StatusCode resp) (RespHeader resp) (bodyData (Body resp)).

(** One recorded (request, response) pair. *)
Record Interaction : Type := mkInteraction {
  request : HttpRequestSerializable;
  response : HttpResponseSerializable
}.

(** The dynamic values that travel through [interface{}] here. *)
Inductive interface : Type :=
  | I_nil
  | I_HttpRequestSerializable (r : HttpRequestSerializable)
  | I_HttpResponseSerializable (r : HttpResponseSerializable)
  | I_Interaction (i : Interaction)
  | I_Response (r : Response).          (* a [*http.Response] *)

(** The comparator contract: candidate request, stored interaction, and
    the answer (accept, shortCircuitNow). *)
Definition Comparator : Type := interface → interface → bool * bool.

(* ===================================================================== *)
(** ** os: the file system *)
(* ===================================================================== *)

Inductive FileData : Type :=
  | CassetteDoc (interactions : list Interaction)   (* a well-formed cassette *)
  | Garbage (raw : list byte).

Inductive Node : Type :=
  | RegularFile (data : FileData)
  | Inaccessible.               (* stat fails with a permission error *)

Record FileSystem : Type := mkFS {
  nodes : gmap string Node;
  writeProtected : gset string  (* entries that cannot be removed or created *)
}.

(** The error of [os.Stat(path)]. *)
Definition os_Stat (fs : FileSystem) (path : string) : error :=
  match nodes fs !! path with
  | None => Some (ErrNotExist path)
  | Some Inaccessible => Some (ErrPermission path)
  | Some (RegularFile _) => None
  end.

(** [os.Remove(path)]. *)
Definition os_Remove (fs : FileSystem) (path : string) : error * FileSystem :=
  match nodes fs !! path with
  | None => (Some (ErrNotExist path), fs)
  | Some Inaccessible => (Some (ErrPermission path), fs)
  | Some (RegularFile _) =>
      if bool_decide (path ∈ writeProtected fs)
      then (Some (ErrPermission path), fs)
      else (None, mkFS (delete path (nodes fs)) (writeProtected fs))
  end.

(** [os.Create(path)]: a new or truncated file. *)
Definition os_Create (fs : FileSystem) (path : string) : error * FileSystem :=
  match nodes fs !! path with
  | Some Inaccessible => (Some (ErrPermission path), fs)
  | _ =>
      if bool_decide (path ∈ writeProtected fs)
      then (Some (ErrPermission path), fs)
      else (None, mkFS (<[path := RegularFile (CassetteDoc [])]> (nodes fs))
                       (writeProtected fs))
  end.

(* ===================================================================== *)
(** ** The recorder and the replayer: interface *)
(* ===================================================================== *)

(** [VcrRecorder], [VcrReplayer] and their functions are called by
    [http_vcr.go] and defined elsewhere in the repository. The embedding
    takes them as an interface: each method is a transformer of the state
    behind the (non-nil) pointer. *)
Class Cassette : Type := {
  VcrRecorder : Type;
  VcrReplayer : Type;
  NewRecorder :
    string → FileSystem → (option VcrRecorder * error) * FileSystem;
  NewReplayer :
    string → interface → interface → Comparator → FileSystem →
    option VcrReplayer * error;
  recorder_Write :
    VcrRecorder → interface → interface → VcrRecorder * error;
  recorder_Close : VcrRecorder → VcrRecorder * error;
  replayer_Write :
    VcrReplayer → interface → VcrReplayer * (option interface * error)
}.

(** What the rest of the world contributes to one request: whether a URL
    text parses, and what the remote origin answers. *)
Class Network : Type := {
  url_ok : string → bool;
  client_Do : OutRequest → Response + GoError
}.

(* ===================================================================== *)
(** ** The recorder and the replayer: the design document's instance *)
(* ===================================================================== *)

Module SpecCassette.

Definition ErrRecorderClosed : GoError := ErrMessage "RecorderClosed".
Definition ErrNoMatch : GoError := ErrMessage "NoMatch".
Definition ErrExhausted : GoError := ErrMessage "Exhausted".
Definition ErrBadArgument : GoError := ErrMessage "unexpected type".

(** Modelled from the spec: the Recorder state,
    [{ targetPath, openHandle, interactionsWrittenCount }], with the
    interactions written so far in place of their count. *)
Record Recorder : Type := mkRecorder {
  targetPath : string;
  openHandle : bool;
  written : list Interaction
}.

(** Modelled from the spec: the Replayer state, the loaded cassette with
    a consumption mark on each interaction, and the comparator. *)
Record Replayer : Type := mkReplayer {
  marks : list (Interaction * bool);
  comparator : Comparator
}.

(** Modelled from the spec: [Create(path)] fails with an IO error if the
    path cannot be created. *)
Definition Create (path : string) (fs : FileSystem)
  : (option Recorder * error) * FileSystem :=
  match os_Create fs path with
  | (Some e, fs') => ((None, Some e), fs')
  | (None, fs') => ((Some (mkRecorder path true []), None), fs')
  end.

(** Modelled from the spec: [Append(request, response)]; after [Close]
    it fails with [RecorderClosed]. *)
Definition Append (rec : Recorder) (req resp : interface)
  : Recorder * error :=
  if openHandle rec then
    match req, resp with
    | I_HttpRequestSerializable q, I_HttpResponseSerializable p =>
        (mkRecorder (targetPath rec) true
                    (written rec ++ [mkInteraction q p]), None)
    | _, _ => (rec, Some ErrBadArgument)
    end
  else (rec, Some ErrRecorderClosed).

(** Modelled from the spec: [Close()] finalizes the file. *)
Definition Close (rec : Recorder) : Recorder * error :=
  (mkRecorder (targetPath rec) false (written rec), None).

(** Modelled from the spec: the Replayer loads the whole cassette once;
    decoding fails on a missing or malformed file. *)
Definition Load (path : string) (reqType respType : interface)
    (cmp : Comparator) (fs : FileSystem) : option Replayer * error :=
  match nodes fs !! path with
  | None => (None, Some (ErrNotExist path))
  | Some Inaccessible => (None, Some (ErrPermission path))
  | Some (RegularFile (Garbage _)) => (None, Some (ErrMalformed path))
  | Some (RegularFile (CassetteDoc c)) =>
      (Some (mkReplayer (map (λ i, (i, false)) c) cmp), None)
  end.

(** Modelled from the spec: the scan of [Resolve]. It starts at the first
    unconsumed interaction; on accept it marks the interaction consumed
    and yields it; a short-circuit without accept stops the scan. *)
Fixpoint scan (cmp : Comparator) (req : interface)
    (l : list (Interaction * bool))
  : option (Interaction * list (Interaction * bool)) :=
  match l with
  | [] => None
  | (i, true) :: l' =>
      match scan cmp req l' with
      | Some (hit, l'') => Some (hit, (i, true) :: l'')
      | None => None
      end
  | (i, false) :: l' =>
      let '(accept, shortCircuit) := cmp req (I_Interaction i) in
      if accept then Some (i, (i, true) :: l')
      else if shortCircuit then None
      else match scan cmp req l' with
           | Some (hit, l'') => Some (hit, (i, false) :: l'')
           | None => None
           end
  end.

(** Modelled from the spec: the live response of a stored one. *)
Definition toResponse (p : HttpResponseSerializable) : Response :=
  mkResponse EmptyString (sStatusCode p) (sRespHeaders p) (mkBody (sRespBody p) None).

(** Modelled from the spec: [Resolve(request)], with [Exhausted] when
    nothing is left unconsumed and [NoMatch] when the scan accepts
    nothing. *)
Definition Resolve (rp : Replayer) (req : interface)
  : Replayer * (option interface * error) :=
  if forallb snd (marks rp) then (rp, (None, Some ErrExhausted))
  else match scan (comparator rp) req (marks rp) with
       | None => (rp, (None, Some ErrNoMatch))
       | Some (hit, l') =>
           (mkReplayer l' (comparator rp),
            (Some (I_Response (toResponse (response hit))), None))
       end.

Definition cassette : Cassette := {|
  VcrRecorder := Recorder;
  VcrReplayer := Replayer;
  NewRecorder := Create;
  NewReplayer := Load;
  recorder_Write := Append;
  recorder_Close := Close;
  replayer_Write := Resolve
|}.

End SpecCassette.

(* ===================================================================== *)
(** ** http_vcr.go *)
(* ===================================================================== *)

Section HttpVcr.

Context {C : Cassette} {N : Network}.

(** [type HttpVcr struct]. A nil pointer is [None]; a non-nil pointer is
    modelled by the state it points to, which this session alone owns. *)
Record HttpVcr : Type := mkHttpVcr {
  recorder : option VcrRecorder;
  replayer : option VcrReplayer;
  recordMode : bool;
  remoteURL : string          (* base URL of remote without trailing `/` *)
}.

(** The comparator [NewHttpVcr] gives the replayer. *)
Definition sequentialComparator (req1 req2 : interface) : bool * bool :=
  (true, true).

Definition NewHttpVcr (filepath : string) (recordMode : bool)
    (remoteURL : string) (fs : FileSystem)
  : (HttpVcr * error) * FileSystem :=
  let vcr := mkHttpVcr None None false EmptyString in
  if recordMode then
    (* delete file if exists *)
    let '(err, fs) :=
      let err := os_Stat fs filepath in
      if negb (os_IsNotExist err) then os_Remove fs filepath
      else (None, fs) in
    match err with
    | Some _ => ((vcr, err), fs)
    | None =>
        let '((recorder, e), fs) := NewRecorder filepath fs in
        ((mkHttpVcr recorder None recordMode remoteURL, e), fs)
    end
  else
    let err := os_Stat fs filepath in
    if os_IsNotExist err then ((vcr, err), fs)
    else
      let '(replayer, e) :=
        NewReplayer filepath
          (I_HttpRequestSerializable (mkSReq EmptyString EmptyString ∅ []))
          (I_HttpResponseSerializable (mkSResp 0 ∅ []))
          sequentialComparator fs in
      ((mkHttpVcr None replayer recordMode remoteURL, e), fs).

(** *** The state one handler call runs in *)

(** The externally visible actions, in the order they happen. *)
Inductive Event : Type :=
  | EvPrint (text : string)                 (* fmt.Printf / fmt.Println *)
  | EvWriteHeader (code : Z)                (* w.WriteHeader(code) *)
  | EvSetHeader (key value : string)        (* w.Header().Set *)
  | EvWriteBody (data : list byte)          (* w.Write(data) *)
  | EvRoundTrip (req : OutRequest)          (* client.Do(req) *)
  | EvRecorderWrite (req resp : interface)  (* recorder.Write *)
  | EvRecorderClose                         (* recorder.Close *)
  | EvReplayerWrite (req : interface)       (* replayer.Write *)
  | EvBodyClose.                            (* resp.Body.Close() *)

Record World : Type := mkWorld {
  session : HttpVcr;          (* what [httpVcr] points to *)
  writer : ResponseWriter;    (* [w] *)
  trace : list Event
}.

(** A computation changes the world and returns or panics; a panic
    keeps the world as it was when it happened. *)
Definition M (A : Type) : Type := World → outcome A * World.

#[global] Instance M_ret : MRet M := λ A a σ, (Returned a, σ).
#[global] Instance M_bind : MBind M := λ A B f m σ,
  match m σ with
  | (Returned a, σ') => f a σ'
  | (Panicked msg, σ') => (Panicked msg, σ')
  end.

Definition panic {A : Type} (msg : string) : M A := λ σ, (Panicked msg, σ).

Definition emit (e : Event) : M unit := λ σ,
  (Returned tt, mkWorld (session σ) (writer σ) (trace σ ++ [e])).

Definition get_session : M HttpVcr := λ σ, (Returned (session σ), σ).

Definition put_session (v : HttpVcr) : M unit := λ σ,
  (Returned tt, mkWorld v (writer σ) (trace σ)).

Definition on_writer (f : ResponseWriter → outcome ResponseWriter) : M unit :=
  λ σ, match f (writer σ) with
       | Returned w => (Returned tt, mkWorld (session σ) w (trace σ))
       | Panicked msg => (Panicked msg, σ)
       end.

(** [defer d] at the head of [body]: [d] runs when [body] is left, by
    return or by panic. *)
Definition deferred {A : Type} (d : M unit) (body : M A) : M A := λ σ,
  let '(out, σ') := body σ in
  let '(_, σ'') := d σ' in
  (out, σ'').

(** Following a pointer. *)
Definition deref {A : Type} (p : option A) : M A :=
  match p with
  | Some a => mret a
  | None => panic nil_dereference
  end.

Definition nl : string := String (ascii_of_nat 10) EmptyString.

Definition fmt_Print (text : string) : M unit := emit (EvPrint text).

Definition w_WriteHeader (code : Z) : M unit :=
  emit (EvWriteHeader code);; on_writer (λ w, rw_WriteHeader w code).

Definition w_Header_Set (key value : string) : M unit :=
  emit (EvSetHeader key value);;
  on_writer (λ w, Returned (rw_Header_Set w key value)).

(** [io.Copy(w, bytes.NewBuffer(data))]: one [Write] of the whole
    buffer, none when the buffer is empty. *)
Definition io_Copy (data : list byte) : M unit :=
  match data with
  | [] => mret tt
  | _ => emit (EvWriteBody data);; on_writer (λ w, rw_Write w data)
  end.

(** Modelled from the spec: [httpVcr.recorder.Write(req, resp)] on a
    receiver that may be nil. The methods of the recorder and the
    replayer are defined outside [http_vcr.go]; by the design document
    they work on the state of their receiver (the open handle, the
    cassette and its marks), which they reach through the pointer, so a
    call on a nil receiver is a nil dereference. *)
Definition do_recorder_Write (req resp : interface) : M error :=
  httpVcr ← get_session;
  rec ← deref (recorder httpVcr);
  emit (EvRecorderWrite req resp);;
  let '(rec', err) := recorder_Write rec req resp in
  put_session (mkHttpVcr (Some rec') (replayer httpVcr)
                         (recordMode httpVcr) (remoteURL httpVcr));;
  mret err.

(** Modelled from the spec: [httpVcr.recorder.Close()] on a receiver
    that may be nil. [Close] is defined outside [http_vcr.go]; by the
    design document it finalizes the file of the open handle, which it
    reaches through its receiver, so on a nil receiver it is a nil
    dereference. *)
Definition do_recorder_Close : M error :=
  httpVcr ← get_session;
  rec ← deref (recorder httpVcr);
  emit EvRecorderClose;;
  let '(rec', err) := recorder_Close rec in
  put_session (mkHttpVcr (Some rec') (replayer httpVcr)
                         (recordMode httpVcr) (remoteURL httpVcr));;
  mret err.

(** Modelled from the spec: [httpVcr.replayer.Write(req)] on a receiver
    that may be nil, as for [do_recorder_Write]. *)
Definition do_replayer_Write (req : interface) : M (option interface * error) :=
  httpVcr ← get_session;
  rp ← deref (replayer httpVcr);
  emit (EvReplayerWrite req);;
  let '(rp', res) := replayer_Write rp req in
  put_session (mkHttpVcr (recorder httpVcr) (Some rp')
                         (recordMode httpVcr) (remoteURL httpVcr));;
  mret res.

(** *** The functions *)

Definition handleErrorInHandler (err : error) : M unit :=
  match err with
  | None => mret tt
  | Some e =>
      w_WriteHeader 500;;
      (* TODO: should we crash the program or keep going? *)
      fmt_Print (nl +:+ "<-- 500 error:  " +:+ Error e +:+ nl)
  end.

Definition getResponseFromRemote (request : Request)
  : M (option Response * error) :=
  httpVcr ← get_session;
  req ← deref (http_NewRequest url_ok (Method request)
                 (remoteURL httpVcr +:+ RequestURI request));
  let req := mkOutRequest (OutMethod req) (OutURL req)
               (Header_Add (OutHeader req) "Authorization"
                  (Header_Get (ReqHeader request) "Authorization"))
               (OutBody req) in
  emit (EvRoundTrip req);;
  match client_Do req with
  | inr err => mret (None, Some err)
  | inl res => mret (Some res, None)
  end.

(** returns error if something doesn't match the cassette *)
Definition getNextRecordedCassetteResponse (request : Request)
  : M (option Response * error) :=
  '(responseWrapper, err) ←
    do_replayer_Write (I_HttpRequestSerializable (NewSerializableHttpRequest request));
  match err with
  | Some _ => mret (Some zeroResponse, err)
  | None =>
      wrapped ← deref responseWrapper;
      match wrapped with
      | I_Response response => mret (Some response, err)
      | _ => panic "interface conversion: interface {} is not *http.Response"
      end
  end.

(** Lines 87 to 111 of [handler]: what it does once it holds a
    response, under the deferred [resp.Body.Close()]. *)
Definition transferResponse (r : Request) (resp : Response) : M unit :=
  deferred (emit EvBodyClose) (* we need to close the body *)
    (w_WriteHeader (StatusCode resp);;
     w_Header_Set "Content-Type" (Header_Get (RespHeader resp) "Content-Type");;
     w_Header_Set "Content-Length" (Header_Get (RespHeader resp) "Content-Length");;
     let '(bodyBytes, err) := ioutil_ReadAll (Body resp) in
     match err with
     | Some _ => handleErrorInHandler err
     | None =>
         io_Copy bodyBytes;;
         let resp := mkResponse (Status resp) (StatusCode resp) (RespHeader resp)
                                (NopCloser_Buffer bodyBytes) in
         httpVcr ← get_session;
         if recordMode httpVcr then
           err ← do_recorder_Write
                   (I_HttpRequestSerializable (NewSerializableHttpRequest r))
                   (I_HttpResponseSerializable (NewSerializableHttpResponse resp));
           handleErrorInHandler err
         else mret tt
     end).

Definition handler (r : Request) : M unit :=
  fmt_Print (nl +:+ "--> " +:+ Method r +:+ " to " +:+ RequestURI r);;
  (* --- pass to VCR, get response back *)
  httpVcr ← get_session;
  if recordMode httpVcr then
    '(resp, err) ← getResponseFromRemote r;
    match err with
    | Some _ => handleErrorInHandler err
    | None =>
        resp ← deref resp;
        fmt_Print (nl +:+ "<-- " +:+ Status resp +:+ " from REMOTE" +:+ nl);;
        transferResponse r resp
    end
  else
    '(resp, err) ← getNextRecordedCassetteResponse r;
    match err with
    | Some _ => handleErrorInHandler err
    | None =>
        resp ← deref resp;
        fmt_Print (nl +:+ "<-- " +:+ Status resp +:+ " from CASSETTE" +:+ nl);;
        transferResponse r resp
    end.

(** The closure [InitializeServer] registers for "/vcr/stop". *)
Definition vcrStop (r : Request) : M unit :=
  fmt_Print nl;;
  fmt_Print ("Received /vcr/stop. Stopping..." +:+ nl);;
  _ ← do_recorder_Close;
  mret tt.

Definition InitializeServer (address : string) : Server :=
  let customMux := http_NewServeMux in
  (* --- VCR control handlers *)
  let customMux := mux_HandleFunc customMux "/vcr/stop" vcrStopHandler in
  (* --- Default VCR catch-all handler *)
  let customMux := mux_HandleFunc customMux "/" vcrHandler in
  mkServer address customMux.

(** *** Serving *)

Definition call (h : HandlerFunc) (r : Request) : M unit :=
  match h with
  | vcrStopHandler => vcrStop r
  | vcrHandler => handler r
  end.

(** [server.Handler.ServeHTTP(w, r)] followed by the server's end of
    request. The redirect and not-found answers are the library's own
    and only their status is kept. (The library also answers the request
    target [*] itself; its path is not canonical, so here it falls under
    the redirect.) *)
Definition ServeHTTP (server : Server) (r : Request) : M unit :=
  match mux_Handler (Handler server) r with
  | ToHandler h => call h r;; on_writer rw_finishRequest
  | ToRedirect _ => w_WriteHeader 301
  | ToNotFound => w_WriteHeader 404
  end.

(** The process between two requests: the server value and the session
    it serves. *)
Record Process : Type := mkProcess {
  theServer : Server;
  theSession : HttpVcr
}.

(** One request served: the process afterwards, the writer the caller's
    answer was written to, the actions taken, and how the call ended. *)
Record Served : Type := mkServed {
  after : Process;
  answer : ResponseWriter;
  actions : list Event;
  ending : outcome unit
}.

(** A request is served with a writer of its own. The server recovers a
    handler's panic, so the process goes on with the session as the
    panic left it. *)
Definition serve (p : Process) (r : Request) : Served :=
  let '(out, σ) :=
    ServeHTTP (theServer p) r
      (mkWorld (theSession p) (NewResponseWriter r) []) in
  mkServed (mkProcess (theServer p) (session σ)) (writer σ) (trace σ) out.

Definition serve_all (p : Process) (rs : list Request) : Process :=
  fold_left (λ p r, after (serve p r)) rs p.

(** *** Vocabulary of the statements *)

(** The disk a RECORD session hands to [NewRecorder] when a file was in
    the way. *)
Definition cleared (filepath : string) (fs : FileSystem) : FileSystem :=
  mkFS (delete filepath (nodes fs)) (writeProtected fs).

(** [m] relates every world it starts in to the world it ends in,
    whether it returns or panics. *)
Definition respects {A : Type} (R : World → World → Prop) (m : M A) : Prop :=
  ∀ σ, R σ (snd (m σ)).

(** The trace only grows. *)
Definition extends (σ σ' : World) : Prop :=
  ∃ more, trace σ' = trace σ ++ more.

(** The live components of a session: its mode and which of the two
    pointers is set. *)
Definition liveRecorder (v : HttpVcr) : bool := bool_decide (is_Some (recorder v)).
Definition liveReplayer (v : HttpVcr) : bool := bool_decide (is_Some (replayer v)).

(** Exactly the component of mode [mode] is live. *)
Definition inMode (mode : bool) (v : HttpVcr) : Prop :=
  recordMode v = mode ∧ liveRecorder v = mode ∧ liveReplayer v = negb mode.

(** The mode of the session and which of its components are live do
    not change. *)
Definition sameMode (σ σ' : World) : Prop :=
  recordMode (session σ') = recordMode (session σ) ∧
  liveRecorder (session σ') = liveRecorder (session σ) ∧
  liveReplayer (session σ') = liveReplayer (session σ) ∧
  remoteURL (session σ') = remoteURL (session σ).

(** A status of the 2xx class. *)
Definition is2xx (code : Z) : bool := (200 <=? code) && (code <=? 299).

(** The failure report the design document asks for: a status outside
    2xx and a body that contains the reason. *)
Definition reportsFailure (w : ResponseWriter) (reason : string) : Prop :=
  is2xx (status w) = false ∧
  bytes_Contains (sentBody w) (String.list_byte_of_string reason) = true.

(** The outbound request the design document asks for. *)
Definition forwards (vcr : HttpVcr) (inbound : Request) (out : OutRequest) : Prop :=
  OutMethod out = Method inbound ∧
  OutURL out = remoteURL vcr +:+ RequestURI inbound ∧
  OutHeader out !! "Authorization"%string =
    Some [Header_Get (ReqHeader inbound) "Authorization"].

(** A per-request failure in RECORD mode: the outbound request is built
    and [client.Do] returns the error [e]. *)
Definition fetchFails (σ : World) (r : Request) (e : GoError) : Prop :=
  recordMode (session σ) = true ∧
  ∃ req,
    http_NewRequest url_ok (Method r) (remoteURL (session σ) +:+ RequestURI r)
      = Some req ∧
    client_Do (mkOutRequest (OutMethod req) (OutURL req)
                 (Header_Add (OutHeader req) "Authorization"
                    (Header_Get (ReqHeader r) "Authorization"))
                 (OutBody req)) = inr e.

(** A per-request failure in REPLAY mode: the replayer returns the
    error [e]. *)
Definition replayFails (σ : World) (r : Request) (e : GoError) : Prop :=
  recordMode (session σ) = false ∧
  ∃ rp,
    replayer (session σ) = Some rp ∧
    snd (snd (replayer_Write rp
                (I_HttpRequestSerializable (NewSerializableHttpRequest r))))
      = Some e.

(** The line [handleErrorInHandler] prints. *)
Definition errorLine (e : GoError) : Event :=
  EvPrint (nl +:+ "<-- 500 error:  " +:+ Error e +:+ nl).

(** The position of the first event with property [p]. *)
Fixpoint firstIndex (p : Event → bool) (tr : list Event) : option nat :=
  match tr with
  | [] => None
  | e :: tr' => if p e then Some 0%nat else S <$> firstIndex p tr'
  end.

Definition isCallerWrite (e : Event) : bool :=
  match e with EvWriteHeader _ | EvWriteBody _ => true | _ => false end.
Definition isBodyWrite (e : Event) : bool :=
  match e with EvWriteBody _ => true | _ => false end.
Definition isRecorderWrite (e : Event) : bool :=
  match e with EvRecorderWrite _ _ => true | _ => false end.

End HttpVcr.

(* ===================================================================== *)
(** ** Concrete scenarios *)
(* ===================================================================== *)

Module Scenario.

Definition quote : string := String (ascii_of_nat 34) EmptyString.

(** The bytes of the JSON text with the one field ok set to true. *)
Definition jsonBody : list byte :=
  String.list_byte_of_string ("{" +:+ quote +:+ "ok" +:+ quote +:+ ":true}").

Definition jsonHeader : Header :=
  <["Content-Type"%string := ["application/json"%string]]> ∅.

(** An origin that answers every request with 200 and a JSON body. *)
Definition okOrigin : Network := {|
  url_ok := λ _, true;
  client_Do := λ _, inl (mkResponse "200 OK" 200 jsonHeader (mkBody jsonBody None))
|}.

(** An origin that cannot be reached. *)
Definition downOrigin : Network := {|
  url_ok := λ _, true;
  client_Do := λ _, inr (ErrMessage "connection refused")
|}.

Definition ping : Request :=
  mkRequest "GET" "/ping" "/ping"
    (<["Authorization"%string := ["Bearer sk_test"%string]]> ∅) [].

Definition stop : Request := mkRequest "POST" "/vcr/stop" "/vcr/stop" ∅ [].

Definition pong : Interaction :=
  mkInteraction (mkSReq "GET" "/ping" ∅ [])
                (mkSResp 200 jsonHeader jsonBody).

Definition emptyDisk : FileSystem := mkFS ∅ ∅.

(** A disk that already holds a cassette at "main_result.yaml". *)
Definition usedDisk : FileSystem :=
  mkFS (<["main_result.yaml"%string := RegularFile (CassetteDoc [pong])]> ∅) ∅.

(** The same disk with that file protected against removal. *)
Definition lockedDisk : FileSystem :=
  mkFS (nodes usedDisk) {["main_result.yaml"%string]}.

Definition recording : HttpVcr (C := SpecCassette.cassette) :=
  mkHttpVcr (C := SpecCassette.cassette) (Some (SpecCassette.mkRecorder "main_result.yaml" true []))
            None true "https://api.stripe.com".

Definition replaying : HttpVcr (C := SpecCassette.cassette) :=
  mkHttpVcr (C := SpecCassette.cassette) None
            (Some (SpecCassette.mkReplayer [(pong, false)] sequentialComparator))
            false "https://api.stripe.com".

(** A replay session whose cassette is used up. *)
Definition exhausted : HttpVcr (C := SpecCassette.cassette) :=
  mkHttpVcr (C := SpecCassette.cassette) None
            (Some (SpecCassette.mkReplayer [(pong, true)] sequentialComparator))
            false "https://api.stripe.com".

Definition fresh (v : HttpVcr (C := SpecCassette.cassette)) (r : Request)
  : World (C := SpecCassette.cassette) :=
  mkWorld v (NewResponseWriter r) [].

End Scenario.

(* ===================================================================== *)
(** ** Vocabulary of the further statements *)
(* ===================================================================== *)

Section Exchanges.

Context {C : Cassette} {N : Network}.

(** A successful fetch in RECORD mode: the outbound request is built and
    [client.Do] returns the response [resp]. *)
Definition fetched (σ : World) (r : Request) (resp : Response) : Prop :=
  recordMode (session σ) = true ∧
  ∃ req,
    http_NewRequest url_ok (Method r) (remoteURL (session σ) +:+ RequestURI r)
      = Some req ∧
    client_Do (mkOutRequest (OutMethod req) (OutURL req)
                 (Header_Add (OutHeader req) "Authorization"
                    (Header_Get (ReqHeader r) "Authorization"))
                 (OutBody req)) = inl resp.


(** The body bytes the server lets through for a response: none for a
    HEAD request and for a status that allows no body. *)
Definition deliverable (w : ResponseWriter) (resp : Response) : list byte :=
  if bodyAllowedForStatus (StatusCode resp) && negb (forHead w)
  then bodyData (Body resp) else [].

(** What the handler hands to the recorder for an exchange. *)
Definition askedOf (r : Request) : interface :=
  I_HttpRequestSerializable (NewSerializableHttpRequest r).

Definition storedOf (resp : Response) : interface :=
  I_HttpResponseSerializable
    (mkSResp (StatusCode resp) (RespHeader resp) (bodyData (Body resp))).

Definition isRoundTrip (e : Event) : bool :=
  match e with EvRoundTrip _ => true | _ => false end.
Definition isReplayerWrite (e : Event) : bool :=
  match e with EvReplayerWrite _ => true | _ => false end.

(** An action of a REPLAY session: not a request to the origin, not a
    write to the recorder. *)
Definition offline (e : Event) : Prop :=
  isRoundTrip e = false ∧ isRecorderWrite e = false.

(** An outbound request to the joined URL, with the Authorization value
    as its only header, and no body. *)
Definition bare (vcr : HttpVcr) (inbound : Request) (out : OutRequest) : Prop :=
  OutURL out = remoteURL vcr +:+ RequestURI inbound ∧
  OutHeader out =
    {[ "Authorization"%string := [Header_Get (ReqHeader inbound) "Authorization"] ]} ∧
  OutBody out = None.

(** Every request to the origin among the actions is [bare]. *)
Definition onlyBare (vcr : HttpVcr) (inbound : Request) (e : Event) : Prop :=
  match e with
  | EvRoundTrip out => bare vcr inbound out
  | _ => True
  end.

End Exchanges.

Module MoreScenarios.

(** An origin whose joined URL never parses (a malformed base URL). *)
Definition badBase : Network := {|
  url_ok := λ _, false;
  client_Do := λ _, inr (ErrMessage "unreachable")
|}.

(** An origin whose body stream breaks after the first bytes. *)
Definition brokenStream : Network := {|
  url_ok := λ _, true;
  client_Do := λ _,
    inl (mkResponse "200 OK" 200 Scenario.jsonHeader
           (mkBody (take 3 Scenario.jsonBody) (Some (ErrMessage "unexpected EOF"))))
|}.

Definition okResponse : Response :=
  mkResponse "200 OK" 200 Scenario.jsonHeader (mkBody Scenario.jsonBody None).

(** A recording session whose recorder was closed. *)
Definition stopped : HttpVcr (C := SpecCassette.cassette) :=
  mkHttpVcr (C := SpecCassette.cassette)
            (Some (SpecCassette.mkRecorder "main_result.yaml" false []))
            None true "https://api.stripe.com".

Definition post : Request :=
  mkRequest "POST" "/v1/charges" "/v1/charges"
    (<["Content-Type"%string := ["application/x-www-form-urlencoded"%string]]>
       (<["Authorization"%string := ["Bearer sk_test"%string]]> ∅))
    (String.list_byte_of_string "amount=100").

(** A replayer that hands out a value that is not a response. *)
Definition oddCassette : Cassette := {|
  VcrRecorder := unit;
  VcrReplayer := unit;
  NewRecorder := λ _ fs, ((Some tt, None), fs);
  NewReplayer := λ _ _ _ _ _, (Some tt, None);
  recorder_Write := λ rec _ _, (rec, None);
  recorder_Close := λ rec, (rec, None);
  replayer_Write := λ rp req, (rp, (Some req, None))
|}.

End MoreScenarios.

(* ===================================================================== *)
(** ** The constructor *)
(* ===================================================================== *)

Section Constructor.

Context {C : Cassette}.

(** C4. A REPLAY session at a path that does not exist fails with the
    not-exist error of [os.Stat]; the session it returns has no replayer
    (and no recorder), [NewReplayer] is not consulted, and the disk is
    left as it was. *)
Theorem replay_missing_file_fails
    (filepath remoteURL : string) (fs : FileSystem) :
  nodes fs !! filepath = None →
  NewHttpVcr filepath false remoteURL fs
    = ((mkHttpVcr None None false EmptyString, Some (ErrNotExist filepath)), fs)
  ∧ os_IsNotExist (Some (ErrNotExist filepath)) = true.
Proof.
  intros Habsent. split; [|reflexivity].
  unfold NewHttpVcr, os_Stat. rewrite Habsent. reflexivity.
Qed.

(** C5. When a file exists at the target path, a RECORD session removes
    it and creates the recorder on the disk without it; when the file
    cannot be removed the constructor returns the removal error, and no
    recorder. *)
Theorem record_removes_existing_file
    (filepath remoteURL : string) (fs : FileSystem) (data : FileData) :
  nodes fs !! filepath = Some (RegularFile data) →
  nodes (cleared filepath fs) !! filepath = None ∧
  NewHttpVcr filepath true remoteURL fs =
    if bool_decide (filepath ∈ writeProtected fs)
    then ((mkHttpVcr None None false EmptyString, Some (ErrPermission filepath)), fs)
    else
      let '((recorder, e), fs') := NewRecorder filepath (cleared filepath fs) in
      ((mkHttpVcr recorder None true remoteURL, e), fs').
Proof.
  intros Hfile. split.
  - apply lookup_delete_eq.
  - unfold NewHttpVcr, os_Stat, os_Remove. rewrite Hfile. cbn.
    destruct (bool_decide (filepath ∈ writeProtected fs)); reflexivity.
Qed.

End Constructor.

Lemma replay_missing_file_fails_witness :
  NewHttpVcr (C := SpecCassette.cassette)
    "main_result.yaml" false "https://api.stripe.com" Scenario.emptyDisk
    = ((mkHttpVcr None None false EmptyString,
        Some (ErrNotExist "main_result.yaml")), Scenario.emptyDisk)
  ∧ os_IsNotExist (Some (ErrNotExist "main_result.yaml")) = true.
Proof.
  apply (replay_missing_file_fails (C := SpecCassette.cassette)
           "main_result.yaml" "https://api.stripe.com" Scenario.emptyDisk).
  reflexivity.
Defined.

Lemma record_removes_existing_file_witness :
  nodes (cleared "main_result.yaml" Scenario.usedDisk) !! "main_result.yaml"%string
    = None
  ∧ NewHttpVcr (C := SpecCassette.cassette)
      "main_result.yaml" true "https://api.stripe.com" Scenario.usedDisk
    = ((Scenario.recording, None),
       mkFS (<["main_result.yaml"%string := RegularFile (CassetteDoc [])]> ∅) ∅).
Proof.
  pose proof (record_removes_existing_file (C := SpecCassette.cassette)
                "main_result.yaml" "https://api.stripe.com" Scenario.usedDisk
                (CassetteDoc [Scenario.pong]) eq_refl) as [Hgone Hnew].
  split; [exact Hgone|].
  rewrite Hnew. vm_compute. reflexivity.
Defined.

(* ===================================================================== *)
(** ** Reasoning about computations *)
(* ===================================================================== *)

Section Computations.

Context {C : Cassette} {N : Network}.

Lemma respects_ret {A : Type} (R : World → World → Prop) (a : A) :
  Reflexive R → respects R (mret a : M A).
Proof. intros HR σ. apply HR. Qed.

Lemma respects_panic {A : Type} (R : World → World → Prop) (msg : string) :
  Reflexive R → respects R (panic msg : M A).
Proof. intros HR σ. apply HR. Qed.

Lemma respects_bind {A B : Type} (R : World → World → Prop)
    (m : M A) (f : A → M B) :
  Transitive R →
  respects R m → (∀ a, respects R (f a)) → respects R (m ≫= f).
Proof.
  intros HR Hm Hf σ. unfold mbind, M_bind.
  specialize (Hm σ). destruct (m σ) as [[a|msg] σ']; cbn in *.
  - etrans; [exact Hm|]. apply Hf.
  - exact Hm.
Qed.

Lemma respects_deferred {A : Type} (R : World → World → Prop)
    (d : M unit) (body : M A) :
  Transitive R →
  respects R body → respects R d → respects R (deferred d body).
Proof.
  intros HR Hbody Hd σ. unfold deferred.
  specialize (Hbody σ). destruct (body σ) as [out σ'].
  specialize (Hd σ'). destruct (d σ') as [u σ'']. cbn in *.
  by etrans.
Qed.

Lemma respects_deref {A : Type} (R : World → World → Prop) (p : option A) :
  Reflexive R → respects R (deref p).
Proof. intros HR. destruct p; [apply respects_ret|apply respects_panic]; done. Qed.

#[local] Instance extends_refl : Reflexive extends.
Proof. intros σ. exists []. by rewrite app_nil_r. Qed.

#[local] Instance extends_trans : Transitive extends.
Proof.
  intros σ1 σ2 σ3 [t1 H1] [t2 H2]. exists (t1 ++ t2).
  by rewrite H2, H1, app_assoc.
Qed.

#[local] Instance sameMode_refl : Reflexive sameMode.
Proof. intros σ. by repeat split. Qed.

#[local] Instance sameMode_trans : Transitive sameMode.
Proof.
  intros σ1 σ2 σ3 (?&?&?&?) (?&?&?&?). repeat split; congruence.
Qed.

End Computations.

(** Every function of [http_vcr.go] respects a relation that is a
    preorder, holds across each primitive action and across an update of
    the state behind the recorder or the replayer pointer. *)
Section Respects.

Context {C : Cassette} {N : Network}.

Variable R : World → World → Prop.
Hypothesis R_refl : Reflexive R.
Hypothesis R_trans : Transitive R.
Hypothesis R_emit : ∀ e, respects R (emit e).
Hypothesis R_writer : ∀ f, respects R (on_writer f).
Hypothesis R_recorder : ∀ σ rec rec',
  recorder (session σ) = Some rec →
  R σ (mkWorld (mkHttpVcr (Some rec') (replayer (session σ))
                          (recordMode (session σ)) (remoteURL (session σ)))
               (writer σ) (trace σ)).
Hypothesis R_replayer : ∀ σ rp rp',
  replayer (session σ) = Some rp →
  R σ (mkWorld (mkHttpVcr (recorder (session σ)) (Some rp')
                          (recordMode (session σ)) (remoteURL (session σ)))
               (writer σ) (trace σ)).

Ltac compose :=
  repeat first
    [ apply respects_ret; assumption
    | apply respects_panic; assumption
    | apply respects_deref; assumption
    | apply R_emit
    | apply R_writer
    | match goal with H : _ |- _ => apply H end
    | apply respects_bind; [assumption| |intros ?]
    | apply respects_deferred; [assumption| |]
    | match goal with
      | |- respects _ (match ?x with _ => _ end) => destruct x
      end ].

Lemma respects_get_session : respects R get_session.
Proof. intros σ. apply R_refl. Qed.

Lemma respects_WriteHeader code : respects R (w_WriteHeader code).
Proof. unfold w_WriteHeader. compose. Qed.

Lemma respects_Header_Set key value : respects R (w_Header_Set key value).
Proof. unfold w_Header_Set. compose. Qed.

Lemma respects_io_Copy data : respects R (io_Copy data).
Proof. unfold io_Copy. compose. Qed.

Lemma respects_recorder_Write req resp : respects R (do_recorder_Write req resp).
Proof.
  intros σ. unfold do_recorder_Write, get_session, mbind, M_bind, deref.
  destruct (recorder (session σ)) as [rec|] eqn:Hrec; cbn; [|apply R_refl].
  destruct (recorder_Write rec req resp) as [rec' err]; cbn.
  etrans; [apply (R_emit (EvRecorderWrite req resp) σ)|].
  apply (R_recorder (snd (emit (EvRecorderWrite req resp) σ)) rec rec' Hrec).
Qed.

Lemma respects_recorder_Close : respects R do_recorder_Close.
Proof.
  intros σ. unfold do_recorder_Close, get_session, mbind, M_bind, deref.
  destruct (recorder (session σ)) as [rec|] eqn:Hrec; cbn; [|apply R_refl].
  destruct (recorder_Close rec) as [rec' err]; cbn.
  etrans; [apply (R_emit EvRecorderClose σ)|].
  apply (R_recorder (snd (emit EvRecorderClose σ)) rec rec' Hrec).
Qed.

Lemma respects_replayer_Write req : respects R (do_replayer_Write req).
Proof.
  intros σ. unfold do_replayer_Write, get_session, mbind, M_bind, deref.
  destruct (replayer (session σ)) as [rp|] eqn:Hrp; cbn; [|apply R_refl].
  destruct (replayer_Write rp req) as [rp' res]; cbn.
  etrans; [apply (R_emit (EvReplayerWrite req) σ)|].
  apply (R_replayer (snd (emit (EvReplayerWrite req) σ)) rp rp' Hrp).
Qed.

Lemma respects_handleErrorInHandler err : respects R (handleErrorInHandler err).
Proof.
  pose proof respects_WriteHeader.
  unfold handleErrorInHandler, fmt_Print. compose.
Qed.

Lemma respects_getResponseFromRemote request :
  respects R (getResponseFromRemote request).
Proof.
  pose proof respects_get_session.
  unfold getResponseFromRemote. compose.
Qed.

Lemma respects_getNextRecordedCassetteResponse request :
  respects R (getNextRecordedCassetteResponse request).
Proof.
  pose proof respects_replayer_Write.
  unfold getNextRecordedCassetteResponse. compose.
Qed.

Lemma respects_transferResponse r resp : respects R (transferResponse r resp).
Proof.
  pose proof respects_WriteHeader. pose proof respects_Header_Set.
  pose proof respects_handleErrorInHandler. pose proof respects_io_Copy.
  pose proof respects_get_session. pose proof respects_recorder_Write.
  unfold transferResponse, fmt_Print. compose.
Qed.

Lemma respects_handler r : respects R (handler r).
Proof.
  pose proof respects_get_session. pose proof respects_handleErrorInHandler.
  pose proof respects_getResponseFromRemote.
  pose proof respects_getNextRecordedCassetteResponse.
  pose proof respects_transferResponse.
  unfold handler, fmt_Print. compose.
Qed.

Lemma respects_vcrStop r : respects R (vcrStop r).
Proof.
  pose proof respects_recorder_Close.
  unfold vcrStop, fmt_Print. compose.
Qed.

Lemma respects_ServeHTTP server r : respects R (ServeHTTP server r).
Proof.
  pose proof respects_WriteHeader.
  pose proof respects_vcrStop. pose proof respects_handler.
  unfold ServeHTTP, call. compose.
Qed.

End Respects.

(* ===================================================================== *)
(** ** The session keeps its mode *)
(* ===================================================================== *)

Section Lifetime.

Context {C : Cassette} {N : Network}.

Lemma ServeHTTP_sameMode server r : respects sameMode (ServeHTTP server r).
Proof.
  apply respects_ServeHTTP.
  - apply sameMode_refl.
  - apply sameMode_trans.
  - intros e σ. by repeat split.
  - intros f σ. unfold on_writer. destruct (f (writer σ)); by repeat split.
  - intros σ rec rec' Hrec. unfold sameMode, liveRecorder, liveReplayer; cbn.
    rewrite Hrec. by repeat split.
  - intros σ rp rp' Hrp. unfold sameMode, liveRecorder, liveReplayer; cbn.
    rewrite Hrp. by repeat split.
Qed.

Lemma extends_emit e : respects extends (emit e).
Proof. intros σ. by exists [e]. Qed.

Lemma extends_writer f : respects extends (on_writer f).
Proof.
  intros σ. unfold on_writer.
  destruct (f (writer σ)); exists []; cbn; by rewrite app_nil_r.
Qed.

Lemma extends_session (σ : World) (v : HttpVcr) :
  extends σ (mkWorld v (writer σ) (trace σ)).
Proof. exists []; cbn; by rewrite app_nil_r. Qed.

Lemma handleErrorInHandler_extends err :
  respects extends (handleErrorInHandler err).
Proof.
  apply respects_handleErrorInHandler;
    auto using extends_refl, extends_trans, extends_emit, extends_writer.
Qed.

Lemma transferResponse_extends r resp :
  respects extends (transferResponse r resp).
Proof.
  apply respects_transferResponse;
    auto using extends_refl, extends_trans, extends_emit, extends_writer,
               extends_session.
Qed.

Lemma serve_inMode (mode : bool) (p : Process) (r : Request) :
  inMode mode (theSession p) → inMode mode (theSession (after (serve p r))).
Proof.
  intros (Hm & Hrec & Hrp). unfold serve.
  pose proof (ServeHTTP_sameMode (theServer p) r
                (mkWorld (theSession p) (NewResponseWriter r) [])) as Hsame.
  destruct (ServeHTTP _ _ _) as [out σ]. cbn in *.
  destruct Hsame as (H1 & H2 & H3 & _). cbn in H1, H2, H3.
  unfold inMode. repeat split; congruence.
Qed.

Lemma serve_all_inMode (mode : bool) (rs : list Request) (p : Process) :
  inMode mode (theSession p) → inMode mode (theSession (serve_all p rs)).
Proof.
  revert p. induction rs as [|r rs IH]; intros p Hp; [exact Hp|].
  cbn. apply IH, serve_inMode, Hp.
Qed.

(** C9. Provided [NewRecorder] and [NewReplayer] return a non-nil pointer
    whenever they return a nil error, a session the constructor returns
    without error has exactly the component of its mode live: the
    recorder if and only if recordMode is true, the replayer otherwise.
    Serving any sequence of requests, on any server, leaves the mode and
    the live component as they were. *)
Theorem one_mode_for_life
    (filepath : string) (mode : bool) (url : string) (fs fs' : FileSystem)
    (vcr : HttpVcr) :
  (∀ p fs0, snd (fst (NewRecorder p fs0)) = None →
            is_Some (fst (fst (NewRecorder p fs0)))) →
  (∀ p a b cmp fs0, snd (NewReplayer p a b cmp fs0) = None →
                    is_Some (fst (NewReplayer p a b cmp fs0))) →
  NewHttpVcr filepath mode url fs = ((vcr, None), fs') →
  inMode mode vcr ∧
  ∀ (server : Server) (rs : list Request),
    inMode mode (theSession (serve_all (mkProcess server vcr) rs)).
Proof.
  intros Hrec Hrp Hnew.
  assert (inMode mode vcr) as Hmode.
  { unfold NewHttpVcr in Hnew. destruct mode.
    - destruct (if negb (os_IsNotExist (os_Stat fs filepath))
                then os_Remove fs filepath else (None, fs)) as [[e|] fs1];
        [discriminate|].
      specialize (Hrec filepath fs1).
      destruct (NewRecorder filepath fs1) as [[rec e] fs2]; cbn in *.
      injection Hnew as <- -> _. specialize (Hrec eq_refl).
      unfold inMode, liveRecorder, liveReplayer; cbn.
      repeat split; by apply bool_decide_eq_true.
    - destruct (os_IsNotExist (os_Stat fs filepath)) eqn:Hstat.
      { injection Hnew as _ Herr _.
        destruct (os_Stat fs filepath) as [[]|]; discriminate. }
      specialize (Hrp filepath
                    (I_HttpRequestSerializable (mkSReq EmptyString EmptyString ∅ []))
                    (I_HttpResponseSerializable (mkSResp 0 ∅ []))
                    sequentialComparator fs).
      destruct (NewReplayer _ _ _ _ _) as [rp e]; cbn in *.
      injection Hnew as <- -> _. specialize (Hrp eq_refl).
      unfold inMode, liveRecorder, liveReplayer; cbn.
      repeat split; by apply bool_decide_eq_true. }
  split; [exact Hmode|].
  intros server rs. by apply serve_all_inMode.
Qed.

End Lifetime.

Lemma one_mode_for_life_witness :
  inMode true Scenario.recording ∧
  ∀ (server : Server) (rs : list Request),
    inMode true
      (theSession (serve_all (N := Scenario.okOrigin)
                     (mkProcess server Scenario.recording) rs)).
Proof.
  apply (one_mode_for_life (C := SpecCassette.cassette) (N := Scenario.okOrigin)
           "main_result.yaml" true "https://api.stripe.com"
           Scenario.usedDisk
           (mkFS (<["main_result.yaml"%string := RegularFile (CassetteDoc [])]> ∅) ∅)).
  - intros p fs0. cbn. unfold SpecCassette.Create.
    destruct (os_Create fs0 p) as [[e|] fs1]; cbn; [discriminate|eauto].
  - intros p a b cmp fs0. cbn. unfold SpecCassette.Load.
    destruct (nodes fs0 !! p) as [[[c|raw]|]|]; cbn; try discriminate; eauto.
  - vm_compute. reflexivity.
Defined.

(* ===================================================================== *)
(** ** The handler *)
(* ===================================================================== *)

Section Handler.

Context {C : Cassette} {N : Network}.

Lemma validMethod_nonempty (m : string) :
  validMethod m = true → String.eqb m EmptyString = false.
Proof.
  unfold validMethod. destruct (String.eqb m EmptyString); [discriminate|done].
Qed.

(** [getResponseFromRemote] sends exactly one request, built from the
    inbound one, and returns what the origin answers. *)
Lemma getResponseFromRemote_sends (σ : World) (request : Request) :
  validMethod (Method request) = true →
  url_ok (remoteURL (session σ) +:+ RequestURI request) = true →
  let out :=
    mkOutRequest (Method request)
      (remoteURL (session σ) +:+ RequestURI request)
      (Header_Add ∅ "Authorization"
         (Header_Get (ReqHeader request) "Authorization"))
      None in
  getResponseFromRemote request σ =
    (Returned (match client_Do out with
               | inl res => (Some res, None)
               | inr err => (None, Some err)
               end),
     mkWorld (session σ) (writer σ) (trace σ ++ [EvRoundTrip out])).
Proof.
  intros Hm Hurl out.
  unfold getResponseFromRemote, http_NewRequest, get_session, mbind, M_bind.
  rewrite (validMethod_nonempty _ Hm), Hm, Hurl. subst out. cbn.
  destruct (client_Do _); reflexivity.
Qed.

(** C7. In RECORD mode, when the outbound request can be built (the
    inbound method is a valid token and the joined URL parses), the
    handler sends the origin a request with the inbound method, the
    base URL followed by the inbound request URI, and the inbound
    Authorization value as its Authorization header. *)
Theorem record_mode_forwards (σ : World) (request : Request) :
  recordMode (session σ) = true →
  validMethod (Method request) = true →
  url_ok (remoteURL (session σ) +:+ RequestURI request) = true →
  ∃ out,
    forwards (session σ) request out ∧ OutBody out = None ∧
    EvRoundTrip out ∈ trace (snd (handler request σ)).
Proof.
  intros Hmode Hm Hurl.
  eexists. split; [|split]; [| |].
  3: {
    unfold handler. unfold mbind at 1 2. unfold M_bind at 1 2.
    unfold fmt_Print, emit, get_session. cbn beta iota. cbn [session].
    rewrite Hmode. unfold mbind at 1. unfold M_bind at 1.
    rewrite getResponseFromRemote_sends by (cbn [session]; assumption).
    cbn [session writer trace].
    match goal with
    | |- _ ∈ trace (snd (?k ?w)) =>
        assert (extends w (snd (k w))) as [more Hmore]
    end.
    { destruct (client_Do _) as [res|err].
      - apply (respects_bind extends); [apply extends_trans| |].
        + apply respects_deref, extends_refl.
        + intros resp. apply (respects_bind extends); [apply extends_trans| |].
          * apply extends_emit.
          * intros _. apply transferResponse_extends.
      - apply handleErrorInHandler_extends. }
    rewrite Hmore. cbn [trace].
    apply elem_of_app; left. apply elem_of_app; right.
    apply list_elem_of_singleton. reflexivity. }
  - unfold forwards. split_and!; reflexivity.
  - reflexivity.
Qed.

(** What [handleErrorInHandler] does to a writer that has committed
    nothing: status 500, no body. *)
Lemma handleErrorInHandler_fresh (σ : World) (e : GoError) :
  wroteHeader (writer σ) = false →
  handleErrorInHandler (Some e) σ =
    (Returned tt,
     mkWorld (session σ)
       (mkWriter (forHead (writer σ)) (handlerHeader (writer σ)) true 500
                 (handlerHeader (writer σ)) (sentBody (writer σ)))
       (trace σ ++ [EvWriteHeader 500] ++ [errorLine e])).
Proof.
  intros Hfresh.
  unfold handleErrorInHandler, w_WriteHeader, fmt_Print, emit, on_writer,
    rw_WriteHeader, mbind, M_bind.
  cbn. rewrite Hfresh. cbn. by rewrite <- app_assoc.
Qed.

(** C6, as the code has it. A failed fetch in RECORD mode, or a failed
    replay in REPLAY mode, is answered with status 500 and an empty
    body; the reason goes to the console, as the last thing the handler
    does; the handler returns normally and the session keeps its mode
    (in RECORD mode it is untouched). *)
Theorem failure_is_500_without_body (σ : World) (r : Request) (e : GoError) :
  writer σ = NewResponseWriter r →
  fetchFails σ r e ∨ replayFails σ r e →
  ∃ σ',
    handler r σ = (Returned tt, σ') ∧
    status (writer σ') = 500 ∧
    sentBody (writer σ') = [] ∧
    last (trace σ') = Some (errorLine e) ∧
    sameMode σ σ' ∧
    (recordMode (session σ) = true → session σ' = session σ).
Proof.
  intros Hw [[Hmode (req & Hreq & Hdo)] | [Hmode (rp & Hrp & Herr)]].
  - eexists. split.
    + unfold handler. unfold mbind at 1 2. unfold M_bind at 1 2.
      unfold fmt_Print, emit, get_session. cbn beta iota. cbn [session].
      rewrite Hmode. unfold mbind at 1. unfold M_bind at 1.
      unfold getResponseFromRemote, get_session, mbind, M_bind.
      cbn [session]. rewrite Hreq. cbn [deref mret M_ret].
      unfold emit. cbn beta iota. rewrite Hdo. cbn [mret M_ret].
      cbn beta iota.
      rewrite handleErrorInHandler_fresh by (cbn [writer]; by rewrite Hw).
      reflexivity.
    + cbn. rewrite Hw. cbn. split_and!; try done.
      * by rewrite last_app.
  - destruct (replayer_Write rp _) as [rp' [wrapper err]] eqn:Hwrite.
    cbn in Herr. subst err.
    eexists. split.
    + unfold handler. unfold mbind at 1 2. unfold M_bind at 1 2.
      unfold fmt_Print, emit, get_session. cbn beta iota. cbn [session].
      rewrite Hmode. unfold mbind at 1. unfold M_bind at 1.
      unfold getNextRecordedCassetteResponse, do_replayer_Write,
        get_session, put_session, emit, mbind, M_bind.
      cbn [session]. rewrite Hrp. cbn [deref mret M_ret].
      cbn beta iota. rewrite Hwrite. cbn [mret M_ret]. cbn beta iota.
      rewrite handleErrorInHandler_fresh by (cbn [writer]; by rewrite Hw).
      reflexivity.
    + cbn. rewrite Hw. cbn. split_and!; try done.
      * by rewrite last_app.
      * unfold sameMode, liveRecorder, liveReplayer. cbn. rewrite Hrp.
        by split_and!.
      * intros Hrec. congruence.
Qed.

(** Whatever the response, [transferResponse] commits the status and
    the header set as they are before it touches the header map: the
    values it sets afterwards are not part of what is sent. *)
Lemma transferResponse_commits_first (σ : World) (r : Request) (resp : Response) :
  wroteHeader (writer σ) = false →
  validWriteHeaderCode (StatusCode resp) = true →
  let w' := writer (snd (transferResponse r resp σ)) in
  wroteHeader w' = true ∧ status w' = StatusCode resp ∧
  sentHeader w' = handlerHeader (writer σ).
Proof.
  intros Hfresh Hvalid.
  unfold transferResponse, deferred, handleErrorInHandler, w_WriteHeader,
    w_Header_Set, io_Copy, do_recorder_Write, fmt_Print, get_session, put_session, deref,
    panic, emit, on_writer, rw_Write, rw_WriteHeader, ioutil_ReadAll,
    mbind, M_bind, mret, M_ret.
  cbn. rewrite Hfresh, Hvalid. cbn.
  repeat (case_match; cbn; simplify_eq; try done).
Qed.

(** *** The control path *)

Lemma endsWithSlash_app (p : string) : endsWithSlash (p +:+ "/") = true.
Proof.
  induction p as [|c p IH]; [reflexivity|].
  change (endsWithSlash (String c (p +:+ "/")) = true).
  cbn [endsWithSlash].
  destruct (p +:+ "/") eqn:Happ; [by destruct p|exact IH].
Qed.

(** Neither pattern of [InitializeServer] triggers the redirect to a path
    with a slash appended. *)
Lemma no_slash_redirect (address : string) (path : string) :
  redirectToPathSlash (Handler (InitializeServer address)) path = false.
Proof.
  change (Handler (InitializeServer address))
    with (mkMux [("/vcr/stop"%string, vcrStopHandler); ("/"%string, vcrHandler)]).
  unfold redirectToPathSlash, registered, pattern_exact.
  cbn [muxEntries existsb fst].
  destruct (String.eqb_spec "/vcr/stop" (path +:+ "/")) as [Heq|_].
  { pose proof (endsWithSlash_app path) as Hends.
    rewrite <- Heq in Hends. discriminate. }
  destruct (String.eqb_spec "/" (path +:+ "/")) as [Heq|_].
  { destruct path as [|c path]; [by rewrite !andb_false_r|].
    destruct path; discriminate. }
  cbn. by rewrite !andb_false_r.
Qed.

Lemma stop_is_dispatched (address : string) (r : Request) :
  URLPath r = "/vcr/stop"%string →
  mux_Handler (Handler (InitializeServer address)) r = ToHandler vcrStopHandler.
Proof.
  intros Hpath. unfold mux_Handler. rewrite Hpath.
  rewrite (no_slash_redirect address "/vcr/stop").
  change (cleanPath "/vcr/stop") with "/vcr/stop"%string.
  rewrite (no_slash_redirect address "/vcr/stop").
  destruct (String.eqb (Method r) "CONNECT"); reflexivity.
Qed.

Lemma others_are_dispatched (address : string) (r : Request) :
  URLPath r ≠ "/vcr/stop"%string →
  String.prefix "/" (URLPath r) = true →
  Method r = "CONNECT"%string ∨ cleanPath (URLPath r) = URLPath r →
  mux_Handler (Handler (InitializeServer address)) r = ToHandler vcrHandler.
Proof.
  intros Hother Hrooted Hclean.
  assert (mux_match (Handler (InitializeServer address)) (URLPath r)
          = ToHandler vcrHandler) as Hmatch.
  { change (Handler (InitializeServer address))
      with (mkMux [("/vcr/stop"%string, vcrStopHandler); ("/"%string, vcrHandler)]).
    unfold mux_match, pattern_exact, pattern_subtree.
    cbn [muxEntries List.filter fst snd].
    destruct (String.eqb_spec "/vcr/stop" (URLPath r)) as [Heq|_];
      [by destruct Hother|].
    destruct (String.eqb "/" (URLPath r)); [reflexivity|].
    cbn [endsWithSlash andb]. rewrite Hrooted. reflexivity. }
  unfold mux_Handler. destruct Hclean as [-> | ->].
  - cbn [String.eqb Ascii.eqb Bool.eqb].
    by rewrite (no_slash_redirect address (URLPath r)).
  - rewrite String.eqb_refl, (no_slash_redirect address (URLPath r)).
    destruct (String.eqb (Method r) "CONNECT"); exact Hmatch.
Qed.

(** C8. A request to "/vcr/stop" of a session with a recorder reaches
    the control closure, which calls [Close] on the recorder and nothing
    else; the call returns normally. The server value (address, mux,
    registrations) is the one [InitializeServer] built, and requests to
    other canonical paths still go to the VCR handler. *)
Theorem stop_closes_recorder_only
    (address : string) (vcr : HttpVcr) (rec : VcrRecorder) (r : Request) :
  URLPath r = "/vcr/stop"%string →
  recorder vcr = Some rec →
  let served := serve (mkProcess (InitializeServer address) vcr) r in
  ending served = Returned tt ∧
  actions served =
    [EvPrint nl; EvPrint ("Received /vcr/stop. Stopping..." +:+ nl);
     EvRecorderClose] ∧
  theSession (after served) =
    mkHttpVcr (Some (fst (recorder_Close rec))) (replayer vcr)
              (recordMode vcr) (remoteURL vcr) ∧
  theServer (after served) = InitializeServer address ∧
  ∀ r', URLPath r' ≠ "/vcr/stop"%string →
        String.prefix "/" (URLPath r') = true →
        Method r' = "CONNECT"%string ∨ cleanPath (URLPath r') = URLPath r' →
        mux_Handler (Handler (theServer (after served))) r'
          = ToHandler vcrHandler.
Proof.
  intros Hpath Hrec served. subst served.
  unfold serve, ServeHTTP. cbn [theServer theSession].
  rewrite (stop_is_dispatched address r Hpath).
  unfold call, vcrStop, do_recorder_Close, fmt_Print, get_session,
    put_session, emit, on_writer, rw_finishRequest, mbind, M_bind, mret, M_ret.
  cbn. rewrite Hrec. cbn.
  destruct (recorder_Close rec) as [rec' err]; cbn.
  split_and!; try reflexivity.
  intros r'. apply (others_are_dispatched address).
Qed.

(** C10. The control closure calls [Close] without looking at the mode
    or at the pointer: on any session without a recorder the call ends
    in a nil dereference, nothing is written to the caller and no
    [Close] happens. A session constructed in REPLAY mode is such a
    session, whatever the constructor's other results are. *)
Theorem stop_without_recorder_panics
    (filepath url address : string) (fs : FileSystem) (r : Request) :
  URLPath r = "/vcr/stop"%string →
  let vcr := fst (fst (NewHttpVcr filepath false url fs)) in
  let served := serve (mkProcess (InitializeServer address) vcr) r in
  recorder vcr = None ∧
  ending served = Panicked nil_dereference ∧
  wroteHeader (answer served) = false ∧
  sentBody (answer served) = [] ∧
  EvRecorderClose ∉ actions served.
Proof.
  intros Hpath vcr served.
  assert (recorder vcr = None) as Hnil.
  { subst vcr. unfold NewHttpVcr.
    destruct (os_IsNotExist (os_Stat fs filepath)); [reflexivity|].
    destruct (NewReplayer _ _ _ _ _); reflexivity. }
  split; [exact Hnil|]. subst served.
  unfold serve, ServeHTTP. cbn [theServer theSession].
  rewrite (stop_is_dispatched address r Hpath).
  unfold call, vcrStop, do_recorder_Close, fmt_Print, get_session,
    put_session, emit, on_writer, rw_finishRequest, mbind, M_bind, mret, M_ret.
  cbn. rewrite Hnil. cbn.
  split_and!; try reflexivity.
  intros Hin. repeat (apply elem_of_cons in Hin as [Hin|Hin]; [discriminate|]).
  by apply not_elem_of_nil in Hin.
Qed.

End Handler.

Lemma record_mode_forwards_witness :
  ∃ out,
    forwards Scenario.recording Scenario.ping out ∧ OutBody out = None ∧
    EvRoundTrip out ∈
      trace (snd (handler (N := Scenario.okOrigin) Scenario.ping
                    (Scenario.fresh Scenario.recording Scenario.ping))).
Proof.
  apply (record_mode_forwards (C := SpecCassette.cassette) (N := Scenario.okOrigin)
           (Scenario.fresh Scenario.recording Scenario.ping) Scenario.ping);
    reflexivity.
Defined.

Lemma failure_is_500_without_body_witness :
  ∃ σ',
    handler (N := Scenario.downOrigin) Scenario.ping
      (Scenario.fresh Scenario.recording Scenario.ping) = (Returned tt, σ') ∧
    status (writer σ') = 500 ∧
    sentBody (writer σ') = [] ∧
    last (trace σ') = Some (errorLine (ErrMessage "connection refused")) ∧
    sameMode (Scenario.fresh Scenario.recording Scenario.ping) σ' ∧
    (recordMode Scenario.recording = true → session σ' = Scenario.recording).
Proof.
  apply (failure_is_500_without_body (C := SpecCassette.cassette)
           (N := Scenario.downOrigin)
           (Scenario.fresh Scenario.recording Scenario.ping) Scenario.ping
           (ErrMessage "connection refused")).
  - reflexivity.
  - left. split; [reflexivity|]. eexists. split; reflexivity.
Defined.

(** C6, as the design document states it, fails: with the origin down, the
    caller of a RECORD session gets status 500 and no body at all, so the
    body does not contain the reason. The same holds for a REPLAY session
    whose cassette is used up. *)
Lemma failure_body_lacks_reason :
  let fetch := serve (N := Scenario.downOrigin)
                 (mkProcess (InitializeServer "localhost:8080") Scenario.recording)
                 Scenario.ping in
  let replay := serve (N := Scenario.okOrigin)
                  (mkProcess (InitializeServer "localhost:8080") Scenario.exhausted)
                  Scenario.ping in
  (ending fetch = Returned tt ∧ status (answer fetch) = 500 ∧
   sentBody (answer fetch) = [] ∧
   ¬ reportsFailure (answer fetch) "connection refused") ∧
  (ending replay = Returned tt ∧ status (answer replay) = 500 ∧
   sentBody (answer replay) = [] ∧
   ¬ reportsFailure (answer replay) "Exhausted").
Proof.
  cbv zeta. split; (split_and!; [reflexivity..|]);
    intros [_ Hbody]; vm_compute in Hbody; discriminate.
Qed.

(** C1 at a failing input. A RECORD session proxies GET /ping to an origin
    that answers 200 with Content-Type application/json and a JSON body.
    The caller gets the status and the body, but the header set the
    handler committed holds no Content-Type: the handler sets it on the
    header map after [WriteHeader] took its snapshot. The same happens
    when the response comes from the cassette. *)
Theorem content_type_is_not_committed :
  let record := serve (N := Scenario.okOrigin)
                  (mkProcess (InitializeServer "localhost:8080") Scenario.recording)
                  Scenario.ping in
  let replay := serve (N := Scenario.okOrigin)
                  (mkProcess (InitializeServer "localhost:8080") Scenario.replaying)
                  Scenario.ping in
  Header_Get Scenario.jsonHeader "Content-Type" = "application/json"%string ∧
  (ending record = Returned tt ∧ status (answer record) = 200 ∧
   sentBody (answer record) = Scenario.jsonBody ∧
   Header_Get (handlerHeader (answer record)) "Content-Type"
     = "application/json"%string ∧
   committedContentType (answer record) = None) ∧
  (ending replay = Returned tt ∧ status (answer replay) = 200 ∧
   sentBody (answer replay) = Scenario.jsonBody ∧
   committedContentType (answer replay) = None).
Proof. cbv zeta. split_and!; vm_compute; reflexivity. Qed.

(** C2 at a failing input. In the same RECORD exchange the handler first
    answers the caller (status at position 3 of its actions, body at
    position 6) and only then calls the recorder (position 7); the
    interaction is in the recorder when the handler has returned. *)
Theorem caller_is_answered_before_recording :
  let record := serve (N := Scenario.okOrigin)
                  (mkProcess (InitializeServer "localhost:8080") Scenario.recording)
                  Scenario.ping in
  ending record = Returned tt ∧
  firstIndex isCallerWrite (actions record) = Some 3%nat ∧
  firstIndex isBodyWrite (actions record) = Some 6%nat ∧
  firstIndex isRecorderWrite (actions record) = Some 7%nat ∧
  (SpecCassette.written <$> recorder (theSession (after record)))
    = Some [mkInteraction (NewSerializableHttpRequest Scenario.ping)
                          (mkSResp 200 Scenario.jsonHeader Scenario.jsonBody)].
Proof. cbv zeta. split_and!; vm_compute; reflexivity. Qed.

Lemma stop_closes_recorder_only_witness :
  let served := serve (N := Scenario.okOrigin)
                  (mkProcess (InitializeServer "localhost:8080") Scenario.recording)
                  Scenario.stop in
  ending served = Returned tt ∧
  actions served =
    [EvPrint nl; EvPrint ("Received /vcr/stop. Stopping..." +:+ nl);
     EvRecorderClose] ∧
  theSession (after served) =
    mkHttpVcr (C := SpecCassette.cassette)
      (Some (SpecCassette.mkRecorder "main_result.yaml" false []))
      None true "https://api.stripe.com" ∧
  theServer (after served) = InitializeServer "localhost:8080" ∧
  ∀ r', URLPath r' ≠ "/vcr/stop"%string →
        String.prefix "/" (URLPath r') = true →
        Method r' = "CONNECT"%string ∨ cleanPath (URLPath r') = URLPath r' →
        mux_Handler (Handler (theServer (after served))) r'
          = ToHandler vcrHandler.
Proof.
  apply (stop_closes_recorder_only (C := SpecCassette.cassette)
           (N := Scenario.okOrigin) "localhost:8080" Scenario.recording
           (SpecCassette.mkRecorder "main_result.yaml" true []) Scenario.stop);
    reflexivity.
Defined.

Lemma stop_without_recorder_panics_witness :
  let vcr := fst (fst (NewHttpVcr (C := SpecCassette.cassette)
                         "main_result.yaml" false "https://api.stripe.com"
                         Scenario.usedDisk)) in
  let served := serve (N := Scenario.okOrigin)
                  (mkProcess (InitializeServer "localhost:8080") vcr)
                  Scenario.stop in
  recorder vcr = None ∧
  ending served = Panicked nil_dereference ∧
  wroteHeader (answer served) = false ∧
  sentBody (answer served) = [] ∧
  EvRecorderClose ∉ actions served.
Proof.
  apply (stop_without_recorder_panics (C := SpecCassette.cassette)
           (N := Scenario.okOrigin) "main_result.yaml" "https://api.stripe.com"
           "localhost:8080" Scenario.usedDisk Scenario.stop).
  reflexivity.
Defined.

(* ===================================================================== *)
(** ** The sequential comparator on the design document's replayer *)
(* ===================================================================== *)

Section Sequential.

#[local] Existing Instance SpecCassette.cassette.

Lemma scan_sequential (req1 req2 : interface) (l : list (Interaction * bool)) :
  SpecCassette.scan sequentialComparator req1 l
    = SpecCassette.scan sequentialComparator req2 l.
Proof.
  induction l as [|[i consumed] l IH]; [reflexivity|].
  destruct consumed; cbn; [by rewrite IH|reflexivity].
Qed.

Lemma Resolve_sequential (rp : SpecCassette.Replayer) (req1 req2 : interface) :
  SpecCassette.comparator rp = sequentialComparator →
  SpecCassette.Resolve rp req1 = SpecCassette.Resolve rp req2.
Proof.
  intros Hcmp. unfold SpecCassette.Resolve. rewrite Hcmp.
  by rewrite (scan_sequential req1 req2).
Qed.

(** The replayer keeps the comparator it was loaded with. *)
Lemma Resolve_keeps_comparator (rp : SpecCassette.Replayer) (req : interface) :
  SpecCassette.comparator (fst (SpecCassette.Resolve rp req))
    = SpecCassette.comparator rp.
Proof.
  unfold SpecCassette.Resolve.
  destruct (forallb snd (SpecCassette.marks rp)); [reflexivity|].
  destruct (SpecCassette.scan _ _ _) as [[hit l']|]; reflexivity.
Qed.

(** A REPLAY session gets its replayer with the sequential comparator. *)
Lemma NewHttpVcr_replayer_is_sequential
    (filepath url : string) (fs : FileSystem) (rp : SpecCassette.Replayer) :
  replayer (fst (fst (NewHttpVcr filepath false url fs))) = Some rp →
  SpecCassette.comparator rp = sequentialComparator.
Proof.
  unfold NewHttpVcr.
  destruct (os_IsNotExist (os_Stat fs filepath)); [discriminate|].
  cbn. unfold SpecCassette.Load.
  destruct (nodes fs !! filepath) as [[[c|raw]|]|]; cbn; try discriminate.
  by intros [= <-].
Qed.

(** With the sequential comparator the first unconsumed interaction is
    the match, whatever the request. *)
Lemma scan_sequential_first (req : interface)
    (done : list (Interaction * bool)) (i : Interaction)
    (rest : list (Interaction * bool)) :
  Forall (λ m, snd m = true) done →
  SpecCassette.scan sequentialComparator req (done ++ (i, false) :: rest)
    = Some (i, done ++ (i, true) :: rest).
Proof.
  induction 1 as [|[j consumed] done Hj _ IH]; [reflexivity|].
  cbn in Hj. subst consumed. cbn. by rewrite IH.
Qed.

(** C3. The comparator of a REPLAY session answers (true, true) to every
    pair, and a replayer that holds it resolves any two requests from the
    same state to the same response and the same next state. *)
Theorem sequential_matching_ignores_request :
  (∀ req1 req2 : interface, sequentialComparator req1 req2 = (true, true)) ∧
  ∀ (σ : World) (rp : SpecCassette.Replayer) (r1 r2 : Request),
    replayer (session σ) = Some rp →
    SpecCassette.comparator rp = sequentialComparator →
    fst (getNextRecordedCassetteResponse r1 σ)
      = fst (getNextRecordedCassetteResponse r2 σ) ∧
    session (snd (getNextRecordedCassetteResponse r1 σ))
      = session (snd (getNextRecordedCassetteResponse r2 σ)) ∧
    writer (snd (getNextRecordedCassetteResponse r1 σ))
      = writer (snd (getNextRecordedCassetteResponse r2 σ)).
Proof.
  split; [reflexivity|].
  intros σ rp r1 r2 Hrp Hcmp.
  unfold getNextRecordedCassetteResponse, do_replayer_Write, get_session,
    put_session, emit, mbind, M_bind, mret, M_ret.
  cbn. rewrite Hrp. cbn.
  rewrite (Resolve_sequential rp
             (I_HttpRequestSerializable (NewSerializableHttpRequest r1))
             (I_HttpRequestSerializable (NewSerializableHttpRequest r2)) Hcmp).
  destruct (SpecCassette.Resolve rp _) as [rp' [[wrapped|] [e|]]]; cbn;
    try done.
  destruct wrapped; done.
Qed.

End Sequential.

Lemma sequential_matching_ignores_request_witness :
  let other := mkRequest "DELETE" "/v1/customers/cus_1" "/v1/customers/cus_1" ∅ [] in
  let σ := Scenario.fresh Scenario.replaying Scenario.ping in
  fst (getNextRecordedCassetteResponse Scenario.ping σ)
    = fst (getNextRecordedCassetteResponse other σ) ∧
  session (snd (getNextRecordedCassetteResponse Scenario.ping σ))
    = session (snd (getNextRecordedCassetteResponse other σ)) ∧
  writer (snd (getNextRecordedCassetteResponse Scenario.ping σ))
    = writer (snd (getNextRecordedCassetteResponse other σ)).
Proof.
  apply (proj2 sequential_matching_ignores_request
           (Scenario.fresh Scenario.replaying Scenario.ping)
           (SpecCassette.mkReplayer [(Scenario.pong, false)] sequentialComparator));
    reflexivity.
Defined.


(* ===================================================================== *)
(** ** Worked scenarios *)
(* ===================================================================== *)

(** A cassette that cannot be removed stops a RECORD session before any
    recorder exists; the disk is left as it was. *)
Example record_locked_file_fails :
  NewHttpVcr (C := SpecCassette.cassette)
    "main_result.yaml" true "https://api.stripe.com" Scenario.lockedDisk
  = ((mkHttpVcr None None false EmptyString,
      Some (ErrPermission "main_result.yaml")), Scenario.lockedDisk).
Proof. vm_compute. reflexivity. Qed.

(** A REPLAY session over a cassette with one interaction answers any
    first request with the recorded status and body, and the next one
    with status 500 and no body. *)
Example replay_then_exhausted :
  let other := mkRequest "DELETE" "/v1/customers/cus_1" "/v1/customers/cus_1" ∅ [] in
  let first := serve (N := Scenario.downOrigin)
                 (mkProcess (InitializeServer "localhost:8080") Scenario.replaying)
                 other in
  let second := serve (N := Scenario.downOrigin) (after first) Scenario.ping in
  status (answer first) = 200 ∧ sentBody (answer first) = Scenario.jsonBody ∧
  theSession (after first) = Scenario.exhausted ∧
  ending second = Returned tt ∧
  status (answer second) = 500 ∧ sentBody (answer second) = [] ∧
  last (actions second) = Some (errorLine SpecCassette.ErrExhausted).
Proof. cbv zeta. split_and!; vm_compute; reflexivity. Qed.

(** A status below 100 from the cassette makes [WriteHeader] panic; the
    deferred close of the body still runs. *)
Example invalid_status_panics :
  let odd := mkInteraction (mkSReq "GET" "/ping" ∅ []) (mkSResp 42 ∅ []) in
  let vcr := mkHttpVcr (C := SpecCassette.cassette) None
               (Some (SpecCassette.mkReplayer [(odd, false)] sequentialComparator))
               false "https://api.stripe.com" in
  let served := serve (N := Scenario.downOrigin)
                  (mkProcess (InitializeServer "localhost:8080") vcr)
                  Scenario.ping in
  ending served = Panicked "invalid WriteHeader code" ∧
  last (actions served) = Some EvBodyClose.
Proof. cbv zeta. split; vm_compute; reflexivity. Qed.

(* ===================================================================== *)
(** ** Further properties of the constructor *)
(* ===================================================================== *)

Section ConstructorCases.

Context {C : Cassette}.

(** X1. In RECORD mode the constructor either stops with an error because
    something at the target path is in the way (then it returns the zero
    session and leaves the disk alone), or it calls [NewRecorder] on a disk
    where the target path is free and every other entry is as before. *)
Theorem record_constructor_frees_the_path
    (filepath remoteURL : string) (fs : FileSystem) :
  (∃ e, nodes fs !! filepath ≠ None ∧
        NewHttpVcr filepath true remoteURL fs
          = ((mkHttpVcr None None false EmptyString, Some e), fs))
  ∨
  (∃ fs1,
     nodes fs1 !! filepath = None ∧
     (∀ other, other ≠ filepath → nodes fs1 !! other = nodes fs !! other) ∧
     writeProtected fs1 = writeProtected fs ∧
     NewHttpVcr filepath true remoteURL fs =
       let '((recorder, e), fs') := NewRecorder filepath fs1 in
       ((mkHttpVcr recorder None true remoteURL, e), fs')).
Proof.
  unfold NewHttpVcr, os_Stat, os_Remove.
  destruct (nodes fs !! filepath) as [[data|]|] eqn:Hnode; cbn.
  - destruct (bool_decide (filepath ∈ writeProtected fs)); cbn.
    + left. eexists. split; [done|reflexivity].
    + right. exists (mkFS (delete filepath (nodes fs)) (writeProtected fs)).
      split_and!; try reflexivity.
      * apply lookup_delete_eq.
      * intros other Hother. cbn. by apply lookup_delete_ne.
  - left. eexists. split; [done|reflexivity].
  - right. exists fs. split_and!; try done.
Qed.

End ConstructorCases.

(* ===================================================================== *)
(** ** Further properties of the handler *)
(* ===================================================================== *)

Section Exchange.

Context {C : Cassette} {N : Network}.

Ltac run :=
  unfold handler, transferResponse, deferred, handleErrorInHandler,
    getResponseFromRemote, getNextRecordedCassetteResponse,
    do_recorder_Write, do_replayer_Write, w_WriteHeader, w_Header_Set,
    io_Copy, fmt_Print, get_session, put_session, deref, panic, emit,
    on_writer, rw_Write, rw_WriteHeader, ioutil_ReadAll,
    mbind, M_bind, mret, M_ret.

Ltac simp :=
  cbn -[http_NewRequest Header_Add Header_Get validWriteHeaderCode
        bodyAllowedForStatus String.eqb].

(** X2. RECORD mode, the origin answered, the recorder is there, the
    status has three digits and the body can be read: the handler returns
    normally; the caller has the origin's status and the deliverable
    body; the recorder was called once with the inbound request and with
    the origin's status, headers and whole body; the session holds the
    recorder as that call left it, whether or not the call reported an
    error. *)
Theorem record_exchange
    (σ : World) (r : Request) (resp : Response) (rec : VcrRecorder) :
  writer σ = NewResponseWriter r →
  fetched σ r resp →
  validWriteHeaderCode (StatusCode resp) = true →
  bodyErr (Body resp) = None →
  recorder (session σ) = Some rec →
  ∃ σ',
    handler r σ = (Returned tt, σ') ∧
    wroteHeader (writer σ') = true ∧
    status (writer σ') = StatusCode resp ∧
    sentBody (writer σ') = deliverable (writer σ) resp ∧
    EvRecorderWrite (askedOf r) (storedOf resp) ∈ trace σ' ∧
    session σ' =
      mkHttpVcr (Some (fst (recorder_Write rec (askedOf r) (storedOf resp))))
                (replayer (session σ)) true (remoteURL (session σ)).
Proof.
  intros Hw (Hmode & req & Hreq & Hdo) Hcode Hbody Hrec.
  unfold deliverable, askedOf, storedOf.
  destruct (handler r σ) as [out σ'] eqn:Hrun. revert Hrun.
  run. simp. rewrite Hmode. simp. rewrite Hreq. simp. rewrite Hdo. simp.
  rewrite Hw. simp. rewrite Hcode, Hbody. simp.
  unfold NewSerializableHttpResponse, NopCloser_Buffer.
  destruct (bodyData (Body resp)) as [|b data] eqn:Hdata; simp;
    try destruct (bodyAllowedForStatus (StatusCode resp)
                  && negb (Method r =? "HEAD")%string); simp;
    repeat (first [rewrite Hmode | rewrite Hrec]; simp);
    destruct (recorder_Write rec _ _) as [rec' [e|]]; simp;
    intros Hrun; simplify_eq;
    (eexists; split; [reflexivity|]); simp;
    (split_and!; try reflexivity);
    rewrite !elem_of_app, !list_elem_of_singleton; auto 10.
Qed.

Lemma snoc_three (before : list Event) (a b c : Event) :
  ((before ++ [a]) ++ [b]) ++ [c] = before ++ [a; b; c].
Proof. by rewrite <- !app_assoc. Qed.

(** X3. When the recorder reports an error for an exchange, the caller
    does not see it: the status and body were already sent, the 500 that
    [handleErrorInHandler] asks for comes too late to change the status,
    and the error only reaches the console. *)
Theorem recorder_failure_comes_after_the_answer
    (σ : World) (r : Request) (resp : Response) (rec : VcrRecorder)
    (e : GoError) :
  writer σ = NewResponseWriter r →
  fetched σ r resp →
  validWriteHeaderCode (StatusCode resp) = true →
  bodyErr (Body resp) = None →
  recorder (session σ) = Some rec →
  snd (recorder_Write rec (askedOf r) (storedOf resp)) = Some e →
  ∃ σ' before,
    handler r σ = (Returned tt, σ') ∧
    status (writer σ') = StatusCode resp ∧
    sentBody (writer σ') = deliverable (writer σ) resp ∧
    trace σ' = before ++ [EvWriteHeader 500; errorLine e; EvBodyClose].
Proof.
  intros Hw (Hmode & req & Hreq & Hdo) Hcode Hbody Hrec.
  unfold deliverable, askedOf, storedOf, errorLine.
  destruct (handler r σ) as [out σ'] eqn:Hrun. revert Hrun.
  run. simp. rewrite Hmode. simp. rewrite Hreq. simp. rewrite Hdo. simp.
  rewrite Hw. simp. rewrite Hcode, Hbody. simp.
  unfold NewSerializableHttpResponse, NopCloser_Buffer.
  destruct (bodyData (Body resp)) as [|b data] eqn:Hdata; simp;
    try destruct (bodyAllowedForStatus (StatusCode resp)
                  && negb (Method r =? "HEAD")%string); simp;
    repeat (first [rewrite Hmode | rewrite Hrec]; simp);
    destruct (recorder_Write rec _ _) as [rec' err]; simp;
    intros Hrun Herr; revert Hrun; subst err; simp; intros Hrun;
    simplify_eq;
    (eexists; eexists; split; [reflexivity|]); simp;
    (split_and!; try reflexivity);
    apply snoc_three.
Qed.

(** X4. When reading the origin's body fails, the caller gets the
    origin's status, which was already sent, with no body at all (the
    bytes read so far are dropped); nothing is recorded and the session
    is untouched; the error only reaches the console. *)
Theorem body_read_failure_keeps_the_status
    (σ : World) (r : Request) (resp : Response) (e : GoError) :
  writer σ = NewResponseWriter r →
  fetched σ r resp →
  validWriteHeaderCode (StatusCode resp) = true →
  bodyErr (Body resp) = Some e →
  ∃ σ' before,
    handler r σ = (Returned tt, σ') ∧
    status (writer σ') = StatusCode resp ∧
    sentBody (writer σ') = [] ∧
    session σ' = session σ ∧
    trace σ' = before ++ [EvWriteHeader 500; errorLine e; EvBodyClose].
Proof.
  intros Hw (Hmode & req & Hreq & Hdo) Hcode Hbody.
  unfold errorLine.
  destruct (handler r σ) as [out σ'] eqn:Hrun. revert Hrun.
  run. simp. rewrite Hmode. simp. rewrite Hreq. simp. rewrite Hdo. simp.
  rewrite Hw. simp. rewrite Hcode, Hbody. simp.
  intros Hrun; simplify_eq.
  eexists; eexists; split; [reflexivity|]. simp.
  split_and!; try reflexivity.
  apply snoc_three.
Qed.

(** X5. When [http.NewRequest] cannot build the outbound request, the
    handler runs into the nil request: it panics with a nil dereference
    after its first console line; no request goes to the origin, nothing
    is written to the caller, and the session is untouched. *)
Theorem unbuildable_request_panics (σ : World) (r : Request) :
  recordMode (session σ) = true →
  http_NewRequest url_ok (Method r) (remoteURL (session σ) +:+ RequestURI r)
    = None →
  handler r σ =
    (Panicked nil_dereference,
     mkWorld (session σ) (writer σ)
       (trace σ ++ [EvPrint (nl +:+ "--> " +:+ Method r +:+ " to " +:+ RequestURI r)])).
Proof.
  intros Hmode Hreq.
  run. simp. rewrite Hmode. simp. rewrite Hreq. reflexivity.
Qed.


(** X7. REPLAY mode, the replayer reports no error but what it hands out
    is not a response (a nil pointer, or a value of another type): the
    handler panics; nothing is written to the caller, yet the session
    already holds the replayer as the call left it. *)
Theorem replay_of_a_non_response_panics
    (σ : World) (r : Request) (rp rp' : VcrReplayer) (wrapped : option interface) :
  recordMode (session σ) = false →
  replayer (session σ) = Some rp →
  replayer_Write rp (askedOf r) = (rp', (wrapped, None)) →
  (∀ resp, wrapped ≠ Some (I_Response resp)) →
  ∃ msg σ',
    handler r σ = (Panicked msg, σ') ∧
    writer σ' = writer σ ∧
    session σ' =
      mkHttpVcr (recorder (session σ)) (Some rp') false (remoteURL (session σ)).
Proof.
  intros Hmode Hrp Hwrite Hodd. unfold askedOf in Hwrite.
  destruct (handler r σ) as [out σ'] eqn:Hrun. revert Hrun.
  run. simp. rewrite Hmode. simp. rewrite Hrp. simp. rewrite Hwrite. simp.
  destruct wrapped as [[| | | |resp]|]; simp;
    try (by destruct (Hodd resp));
    intros Hrun; simplify_eq;
    (eexists; eexists; split; [reflexivity|]); simp;
    split; try reflexivity; by rewrite Hmode.
Qed.

(** X14. In RECORD mode with a recorder in the session, the handler
    returns normally for every request whose outbound request can be
    built, provided the origin only answers with three-digit status
    codes: a failed fetch, a broken body and a recorder error are all
    handled without a panic. *)
Theorem record_handler_returns
    (σ : World) (r : Request) (rec : VcrRecorder) (req : OutRequest) :
  writer σ = NewResponseWriter r →
  recordMode (session σ) = true →
  recorder (session σ) = Some rec →
  http_NewRequest url_ok (Method r) (remoteURL (session σ) +:+ RequestURI r)
    = Some req →
  (∀ out resp, client_Do out = inl resp →
               validWriteHeaderCode (StatusCode resp) = true) →
  fst (handler r σ) = Returned tt.
Proof.
  intros Hw Hmode Hrec Hreq Hcodes.
  run. simp. rewrite Hmode. simp. rewrite Hreq. simp.
  destruct (client_Do _) as [resp|e] eqn:Hdo; simp.
  - rewrite Hw. simp. rewrite (Hcodes _ _ Hdo). simp.
    destruct (bodyErr (Body resp)) as [e|]; simp; [reflexivity|].
    destruct (bodyData (Body resp)) as [|b data]; simp;
      try destruct (bodyAllowedForStatus (StatusCode resp)
                    && negb (Method r =? "HEAD")%string); simp;
      repeat (first [rewrite Hmode | rewrite Hrec]; simp);
      destruct (recorder_Write rec _ _) as [rec' [e|]]; reflexivity.
  - rewrite Hw. reflexivity.
Qed.

End Exchange.

(* ===================================================================== *)
(** ** Further properties of serving *)
(* ===================================================================== *)

Section Serving.

Context {C : Cassette} {N : Network}.

Ltac run_all :=
  unfold serve, ServeHTTP, call, vcrStop, handler, transferResponse, deferred,
    handleErrorInHandler, getResponseFromRemote,
    getNextRecordedCassetteResponse, do_recorder_Write, do_recorder_Close,
    do_replayer_Write, w_WriteHeader, w_Header_Set, io_Copy, fmt_Print,
    get_session, put_session, deref, panic, emit, on_writer, rw_finishRequest,
    rw_Write, rw_WriteHeader, ioutil_ReadAll, mbind, M_bind, mret, M_ret.

Ltac simp :=
  cbn -[http_NewRequest Header_Add Header_Get validWriteHeaderCode
        bodyAllowedForStatus String.eqb mux_Handler InitializeServer].

(** One case split on what the code branches on next. *)
Ltac split_one :=
  match goal with
  | |- context [match ?x with _ => _ end] =>
      first
        [ is_var x; destruct x
        | match x with
          | mux_Handler _ _ => destruct x
          | recorder_Write _ _ _ => destruct x
          | recorder_Close _ => destruct x
          | replayer_Write _ _ => destruct x
          | http_NewRequest _ _ _ => destruct x
          | client_Do _ => destruct x
          | validWriteHeaderCode _ => destruct x
          | bodyErr _ => destruct x
          | bodyData _ => destruct x
          | andb _ _ => destruct x
          end ]
  end.

Lemma serve_offline (p : Process) (r : Request) :
  recordMode (theSession p) = false →
  Forall offline (actions (serve p r)).
Proof.
  destruct p as [server [rec rp mode url]]. cbn. intros ->.
  run_all. simp. repeat (split_one; simp).
  all: unfold offline; repeat constructor.
Qed.

Lemma serve_keeps_recordMode (p : Process) (r : Request) :
  recordMode (theSession (after (serve p r))) = recordMode (theSession p).
Proof.
  unfold serve.
  pose proof (ServeHTTP_sameMode (theServer p) r
                (mkWorld (theSession p) (NewResponseWriter r) [])) as Hsame.
  destruct (ServeHTTP _ _ _) as [out σ]. exact (proj1 Hsame).
Qed.

Lemma serve_all_keeps_recordMode (rs : list Request) (p : Process) :
  recordMode (theSession (serve_all p rs)) = recordMode (theSession p).
Proof.
  revert p. induction rs as [|r rs IH]; intros p; [reflexivity|].
  etrans; [apply (IH (after (serve p r)))|apply serve_keeps_recordMode].
Qed.

(** X8. A REPLAY session never sends a request to the origin and never
    writes to a recorder: whatever requests were served before, on
    whatever server, none of the actions taken for the next request is a
    round trip or a recorder write. *)
Theorem replay_session_stays_offline
    (p : Process) (rs : list Request) (r : Request) :
  recordMode (theSession p) = false →
  Forall offline (actions (serve (serve_all p rs) r)).
Proof.
  intros Hmode. apply serve_offline.
  by rewrite serve_all_keeps_recordMode.
Qed.

Lemma serve_without_replayer (p : Process) (r : Request) :
  recordMode (theSession p) = true →
  Forall (λ e, isReplayerWrite e = false) (actions (serve p r)).
Proof.
  destruct p as [server [rec rp mode url]]. cbn. intros ->.
  run_all. simp. repeat (split_one; simp).
  all: repeat constructor.
Qed.

(** X9. A RECORD session never consults a replayer: whatever requests
    were served before, none of the actions taken for the next request
    is a replayer call. *)
Theorem record_session_never_replays
    (p : Process) (rs : list Request) (r : Request) :
  recordMode (theSession p) = true →
  Forall (λ e, isReplayerWrite e = false) (actions (serve (serve_all p rs) r)).
Proof.
  intros Hmode. apply serve_without_replayer.
  by rewrite serve_all_keeps_recordMode.
Qed.

(** X10. Every request the proxy sends to the origin while it serves an
    inbound request goes to the base URL joined with the inbound request
    URI, has the inbound Authorization value as its only header, and has
    no body: the inbound body and the other inbound headers are not
    passed on. *)
Theorem outbound_requests_are_bare (p : Process) (r : Request) :
  Forall (onlyBare (theSession p) r) (actions (serve p r)).
Proof.
  destruct p as [server [rec rp mode url]].
  run_all. unfold http_NewRequest. simp.
  destruct mode; simp; repeat (split_one; simp).
  all: repeat constructor.
Qed.

(** X11. The control closure is reached by exactly the requests whose
    path is "/vcr/stop", with any method: a path with a trailing slash,
    a longer path or a path that is not canonical goes elsewhere. *)
Theorem control_path_is_exact (address : string) (r : Request) :
  mux_Handler (Handler (InitializeServer address)) r = ToHandler vcrStopHandler
  ↔ URLPath r = "/vcr/stop"%string.
Proof.
  split; [|apply stop_is_dispatched].
  unfold mux_Handler.
  rewrite !(no_slash_redirect address).
  assert (∀ path, mux_match (Handler (InitializeServer address)) path
                    = ToHandler vcrStopHandler → path = "/vcr/stop"%string)
    as Hmatch.
  { intros path.
    change (Handler (InitializeServer address))
      with (mkMux [("/vcr/stop"%string, vcrStopHandler); ("/"%string, vcrHandler)]).
    unfold mux_match, pattern_exact, pattern_subtree.
    cbn [muxEntries List.filter fst snd].
    destruct (String.eqb_spec "/vcr/stop" path) as [<-|_]; [done|].
    destruct (String.eqb "/" path); [discriminate|].
    cbn [endsWithSlash andb].
    destruct (String.prefix "/" path); discriminate. }
  destruct (String.eqb (Method r) "CONNECT"); [apply Hmatch|].
  destruct (negb _); [discriminate|apply Hmatch].
Qed.


(** X13. Stopping the recorder does not stop the proxy: after a request
    to "/vcr/stop", a RECORD session still forwards the next request to
    the origin and answers the caller with the origin's status and body;
    the exchange is then handed to the closed recorder. *)
Theorem stopped_session_still_proxies
    (address : string) (vcr : HttpVcr) (rec : VcrRecorder)
    (stopRequest r : Request) (resp : Response) :
  URLPath stopRequest = "/vcr/stop"%string →
  recorder vcr = Some rec →
  URLPath r ≠ "/vcr/stop"%string →
  String.prefix "/" (URLPath r) = true →
  Method r = "CONNECT"%string ∨ cleanPath (URLPath r) = URLPath r →
  fetched (mkWorld vcr (NewResponseWriter r) []) r resp →
  validWriteHeaderCode (StatusCode resp) = true →
  bodyErr (Body resp) = None →
  let closed := fst (recorder_Close rec) in
  let next :=
    serve (after (serve (mkProcess (InitializeServer address) vcr) stopRequest)) r in
  ending next = Returned tt ∧
  Exists (λ e, isRoundTrip e = true) (actions next) ∧
  status (answer next) = StatusCode resp ∧
  sentBody (answer next) = deliverable (NewResponseWriter r) resp ∧
  EvRecorderWrite (askedOf r) (storedOf resp) ∈ actions next ∧
  recorder (theSession (after next))
    = Some (fst (recorder_Write closed (askedOf r) (storedOf resp))).
Proof.
  intros Hstop Hrec Hother Hrooted Hclean (Hmode & req & Hreq & Hdo) Hcode Hbody.
  cbn [session] in Hmode, Hreq. intros closed next.
  assert (after (serve (mkProcess (InitializeServer address) vcr) stopRequest)
          = mkProcess (InitializeServer address)
              (mkHttpVcr (Some closed) (replayer vcr) true (remoteURL vcr)))
    as Hfirst.
  { unfold serve, ServeHTTP. cbn [theServer theSession].
    rewrite (stop_is_dispatched address stopRequest Hstop).
    run_all. simp. rewrite Hrec, Hmode. simp. subst closed.
    destruct (recorder_Close rec) as [rec' err]; reflexivity. }
  subst next. rewrite Hfirst. clearbody closed. clear Hfirst.
  unfold serve, ServeHTTP. cbn [theServer theSession].
  rewrite (others_are_dispatched address r Hother Hrooted Hclean).
  unfold deliverable, askedOf, storedOf.
  run_all. simp. rewrite Hreq. simp. rewrite Hdo. simp.
  rewrite Hcode, Hbody. simp.
  unfold NewSerializableHttpResponse, NopCloser_Buffer.
  destruct (bodyData (Body resp)) as [|b data] eqn:Hdata; simp;
    try destruct (bodyAllowedForStatus (StatusCode resp)
                  && negb (Method r =? "HEAD")%string); simp;
    destruct (recorder_Write closed _ _) as [rec' [e|]]; simp;
    (split_and!; try reflexivity);
    try (apply Exists_cons_tl, Exists_cons_hd; reflexivity);
    rewrite !elem_of_cons; auto 12.
Qed.

End Serving.

(* ===================================================================== *)
(** ** The further properties at concrete inputs *)
(* ===================================================================== *)

Lemma record_exchange_witness :
  ∃ σ',
    handler (N := Scenario.okOrigin) MoreScenarios.post
      (Scenario.fresh Scenario.recording MoreScenarios.post) = (Returned tt, σ') ∧
    wroteHeader (writer σ') = true ∧
    status (writer σ') = 200 ∧
    sentBody (writer σ') = Scenario.jsonBody ∧
    EvRecorderWrite (askedOf MoreScenarios.post) (storedOf MoreScenarios.okResponse)
      ∈ trace σ' ∧
    session σ' =
      mkHttpVcr (C := SpecCassette.cassette)
        (Some (SpecCassette.mkRecorder "main_result.yaml" true
                 [mkInteraction (NewSerializableHttpRequest MoreScenarios.post)
                                (mkSResp 200 Scenario.jsonHeader Scenario.jsonBody)]))
        None true "https://api.stripe.com".
Proof.
  apply (record_exchange (C := SpecCassette.cassette) (N := Scenario.okOrigin)
           (Scenario.fresh Scenario.recording MoreScenarios.post)
           MoreScenarios.post MoreScenarios.okResponse
           (SpecCassette.mkRecorder "main_result.yaml" true []));
    try reflexivity.
  split; [reflexivity|]. eexists. split; reflexivity.
Defined.

Lemma recorder_failure_comes_after_the_answer_witness :
  ∃ σ' before,
    handler (N := Scenario.okOrigin) Scenario.ping
      (Scenario.fresh MoreScenarios.stopped Scenario.ping) = (Returned tt, σ') ∧
    status (writer σ') = 200 ∧
    sentBody (writer σ') = Scenario.jsonBody ∧
    trace σ' = before ++ [EvWriteHeader 500;
                          errorLine SpecCassette.ErrRecorderClosed; EvBodyClose].
Proof.
  apply (recorder_failure_comes_after_the_answer
           (C := SpecCassette.cassette) (N := Scenario.okOrigin)
           (Scenario.fresh MoreScenarios.stopped Scenario.ping)
           Scenario.ping MoreScenarios.okResponse
           (SpecCassette.mkRecorder "main_result.yaml" false [])
           SpecCassette.ErrRecorderClosed);
    try reflexivity.
  split; [reflexivity|]. eexists. split; reflexivity.
Defined.

Lemma body_read_failure_keeps_the_status_witness :
  ∃ σ' before,
    handler (N := MoreScenarios.brokenStream) Scenario.ping
      (Scenario.fresh Scenario.recording Scenario.ping) = (Returned tt, σ') ∧
    status (writer σ') = 200 ∧
    sentBody (writer σ') = [] ∧
    session σ' = Scenario.recording ∧
    trace σ' = before ++ [EvWriteHeader 500;
                          errorLine (ErrMessage "unexpected EOF"); EvBodyClose].
Proof.
  apply (body_read_failure_keeps_the_status
           (C := SpecCassette.cassette) (N := MoreScenarios.brokenStream)
           (Scenario.fresh Scenario.recording Scenario.ping) Scenario.ping
           (mkResponse "200 OK" 200 Scenario.jsonHeader
              (mkBody (take 3 Scenario.jsonBody) (Some (ErrMessage "unexpected EOF"))))
           (ErrMessage "unexpected EOF"));
    try reflexivity.
  split; [reflexivity|]. eexists. split; reflexivity.
Defined.

Lemma unbuildable_request_panics_witness :
  handler (N := MoreScenarios.badBase) Scenario.ping
    (Scenario.fresh Scenario.recording Scenario.ping) =
  (Panicked nil_dereference,
   mkWorld Scenario.recording (NewResponseWriter Scenario.ping)
     [EvPrint (nl +:+ "--> GET to /ping")]).
Proof.
  apply (unbuildable_request_panics
           (C := SpecCassette.cassette) (N := MoreScenarios.badBase)
           (Scenario.fresh Scenario.recording Scenario.ping) Scenario.ping);
    reflexivity.
Defined.


Lemma replay_of_a_non_response_panics_witness :
  let vcr := mkHttpVcr (C := MoreScenarios.oddCassette)
               None (Some tt) false "https://api.stripe.com" in
  let σ := mkWorld (C := MoreScenarios.oddCassette) vcr
             (NewResponseWriter Scenario.ping) [] in
  ∃ msg σ',
    handler (C := MoreScenarios.oddCassette) (N := Scenario.downOrigin)
      Scenario.ping σ = (Panicked msg, σ') ∧
    writer σ' = NewResponseWriter Scenario.ping ∧
    session σ' = vcr.
Proof.
  apply (replay_of_a_non_response_panics
           (C := MoreScenarios.oddCassette) (N := Scenario.downOrigin)
           (mkWorld (C := MoreScenarios.oddCassette)
              (mkHttpVcr (C := MoreScenarios.oddCassette)
                 None (Some tt) false "https://api.stripe.com")
              (NewResponseWriter Scenario.ping) [])
           Scenario.ping tt tt (Some (askedOf Scenario.ping)));
    try reflexivity.
  intros resp Heq. discriminate.
Defined.

Lemma record_handler_returns_witness :
  fst (handler (N := Scenario.okOrigin) MoreScenarios.post
         (Scenario.fresh Scenario.recording MoreScenarios.post)) = Returned tt.
Proof.
  apply (record_handler_returns (C := SpecCassette.cassette) (N := Scenario.okOrigin)
           (Scenario.fresh Scenario.recording MoreScenarios.post)
           MoreScenarios.post
           (SpecCassette.mkRecorder "main_result.yaml" true [])
           (mkOutRequest "POST" "https://api.stripe.com/v1/charges" ∅ None));
    try reflexivity.
  intros out resp [= <-]. reflexivity.
Defined.

Lemma replay_session_stays_offline_witness :
  Forall offline
    (actions (serve (N := Scenario.okOrigin)
                (serve_all (N := Scenario.okOrigin)
                   (mkProcess (InitializeServer "localhost:8080") Scenario.replaying)
                   [Scenario.ping; Scenario.ping])
                MoreScenarios.post)).
Proof.
  apply (replay_session_stays_offline (C := SpecCassette.cassette)
           (N := Scenario.okOrigin)
           (mkProcess (InitializeServer "localhost:8080") Scenario.replaying)
           [Scenario.ping; Scenario.ping] MoreScenarios.post).
  reflexivity.
Defined.

Lemma record_session_never_replays_witness :
  Forall (λ e, isReplayerWrite e = false)
    (actions (serve (N := Scenario.okOrigin)
                (serve_all (N := Scenario.okOrigin)
                   (mkProcess (InitializeServer "localhost:8080") Scenario.recording)
                   [Scenario.ping; Scenario.stop])
                MoreScenarios.post)).
Proof.
  apply (record_session_never_replays (C := SpecCassette.cassette)
           (N := Scenario.okOrigin)
           (mkProcess (InitializeServer "localhost:8080") Scenario.recording)
           [Scenario.ping; Scenario.stop] MoreScenarios.post).
  reflexivity.
Defined.


Lemma stopped_session_still_proxies_witness :
  let next :=
    serve (N := Scenario.okOrigin)
      (after (serve (N := Scenario.okOrigin)
                (mkProcess (InitializeServer "localhost:8080") Scenario.recording)
                Scenario.stop))
      Scenario.ping in
  ending next = Returned tt ∧
  Exists (λ e, isRoundTrip e = true) (actions next) ∧
  status (answer next) = 200 ∧
  sentBody (answer next) = Scenario.jsonBody ∧
  EvRecorderWrite (askedOf Scenario.ping) (storedOf MoreScenarios.okResponse)
    ∈ actions next ∧
  recorder (theSession (after next))
    = Some (SpecCassette.mkRecorder "main_result.yaml" false []).
Proof.
  apply (stopped_session_still_proxies
           (C := SpecCassette.cassette) (N := Scenario.okOrigin)
           "localhost:8080" Scenario.recording
           (SpecCassette.mkRecorder "main_result.yaml" true [])
           Scenario.stop Scenario.ping MoreScenarios.okResponse);
    try reflexivity.
  - discriminate.
  - right. reflexivity.
  - split; [reflexivity|]. eexists. split; reflexivity.
Defined.
